(** * Festivly: the prompt composer of [src/lib/prompt-engine.ts]

    A shallow embedding of [generateSmartPrompt], [getEventContext] and
    [generateStaticPrompt], together with the part of ECMAScript they rest
    on: truthiness, [||], property reads on plain objects, template-literal
    string conversion and [JSON.parse].

    - Strings are byte strings holding the UTF-8 form of the JavaScript text.
    - An exception is a value: a computation returns [inr] or throws [inl],
      and [try]/[catch] is a function. Console output is threaded as a list.
    - The call to the generative-model endpoint is a parameter, and so are
      the two keyword tables of [./festival-data].

    A second part embeds the code around the composer: the hook
    [useBrandReady], the components [BrandOnboardingWrapper] and
    [SimpleSignUpModal], and the script
    [apply-brand-style-context-migration.js]. A handler is a function of the
    component state and of what its awaited calls give, run to its end; it
    returns the new state and the calls, console lines and events it made. *)

From Stdlib Require Import ZArith Ascii String List Bool Lia DecimalString.
From stdpp Require Import gmap strings.

Local Open Scope Z_scope.

(** ** ECMAScript values and built-ins *)

Module JS.

(** A Number that [JSON.parse] can produce: a finite IEEE-754 double
    [(-1)^neg * m * 2^e] with [0 <= m < 2^53], or an infinity (a literal
    too large for the format). NaN has no JSON literal. *)
Inductive number :=
  | Finite (neg : bool) (m e : Z)
  | Infinite (neg : bool).

(** Round the non-negative rational [n / d] to an integer, ties to even. *)
Definition round_half_even (n d : Z) : Z :=
  let q := n / d in
  let r := n mod d in
  if 2 * r <? d then q
  else if d <? 2 * r then q + 1
  else if Z.even q then q else q + 1.

(** [(n / d) / 2^k] as a fraction of integers. *)
Definition scale2 (n d k : Z) : Z * Z :=
  if 0 <=? k then (n, d * 2 ^ k) else (n * 2 ^ (- k), d).

(** [floor (log2 (n / d))] for [n, d > 0]. *)
Definition floor_log2 (n d : Z) : Z :=
  let e0 := Z.log2 n - Z.log2 d in
  let '(a, b) := scale2 n d e0 in
  if b <=? a then e0 else e0 - 1.

(** The double nearest to the positive rational [n / d] (round to nearest,
    ties to even, gradual underflow), as mantissa and binary exponent;
    [None] when the result overflows to infinity. *)
Definition double_of_ratio (n d : Z) : option (Z * Z) :=
  let p := Z.max (floor_log2 n d - 52) (-1074) in
  let '(a, b) := scale2 n d p in
  let m := round_half_even a b in
  let '(m, p) := if m =? 2 ^ 53 then (2 ^ 52, p + 1) else (m, p) in
  if (2 ^ 52 <=? m) && (971 <? p) then None else Some (m, p).

(** The Number value of the decimal literal [digits * 10^exp10]. *)
Definition number_of_decimal (neg : bool) (digits exp10 : Z) : number :=
  if digits =? 0 then Finite neg 0 0
  else if 400 <? exp10 then Infinite neg
  else if exp10 + Z.log2 digits <? -1100 then Finite neg 0 0
  else
    let '(n, d) :=
      if 0 <=? exp10 then (digits * 10 ^ exp10, 1) else (digits, 10 ^ (- exp10)) in
    match double_of_ratio n d with
    | Some (m, e) => if m =? 0 then Finite neg 0 0 else Finite neg m e
    | None => Infinite neg
    end.

Definition string_of_Z (z : Z) : string := NilZero.string_of_int (Z.to_int z).

Fixpoint zeros (n : nat) : string :=
  match n with O => "" | S n => String "0" (zeros n) end.

(** [floor (log10 (n / d))] for [n, d > 0], searched from [l]. *)
Fixpoint floor_log10_from (fuel : nat) (n d l : Z) : Z :=
  match fuel with
  | O => l
  | S fuel =>
      let '(lo_a, lo_b) := if 0 <=? l then (n, d * 10 ^ l) else (n * 10 ^ (- l), d) in
      if lo_a <? lo_b then floor_log10_from fuel n d (l - 1)
      else if lo_b * 10 <=? lo_a then floor_log10_from fuel n d (l + 1)
      else l
  end.

Definition floor_log10 (n d : Z) : Z :=
  floor_log10_from 800 n d ((Z.log2 n - Z.log2 d) * 30103 / 100000).

(** [s * 10^t] as a fraction. *)
Definition decimal_ratio (s t : Z) : Z * Z :=
  if 0 <=? t then (s * 10 ^ t, 1) else (s, 10 ^ (- t)).

(** Does the decimal [s * 10^t] read back as the double [m * 2^e]? *)
Definition reads_back (m e s t : Z) : bool :=
  let '(n, d) := decimal_ratio s t in
  match double_of_ratio n d with
  | Some (m', e') => (m' =? m) && ((e' =? e) || (m =? 0))
  | None => false
  end.

(** The shortest decimal [(s, n)] of [k] digits or more that reads back as
    [x = m * 2^e > 0]: [10^(k-1) <= s < 10^k] and [x ~ s * 10^(n-k)]; of
    the two neighbours of [x] the nearer one, the even one on a tie. *)
Fixpoint shortest_from (fuel : nat) (m e l k : Z) : Z * Z * Z :=
  let t := l + 1 - k in
  let '(xn, xd) := scale2 m 1 (- e) in
  let '(tn, td) := if 0 <=? t then (xn, xd * 10 ^ t) else (xn * 10 ^ (- t), xd) in
  let lo := tn / td in
  let hi := lo + 1 in
  let ok_lo := (10 ^ (k - 1) <=? lo) && reads_back m e lo t in
  let ok_hi := reads_back m e hi t in
  (* distance of x to lo is r/td, to hi is (td - r)/td *)
  let r := tn mod td in
  let pick_lo := (lo, l + 1, k) in
  let pick_hi := if hi =? 10 ^ k then (10 ^ (k - 1), l + 2, k) else (hi, l + 1, k) in
  match fuel with
  | O => pick_lo
  | S fuel =>
      if ok_lo && ok_hi then
        if 2 * r <? td then pick_lo
        else if td <? 2 * r then pick_hi
        else if Z.even lo then pick_lo else pick_hi
      else if ok_lo then pick_lo
      else if ok_hi then pick_hi
      else shortest_from fuel m e l (k + 1)
  end.

(** Number::toString (radix 10). *)
Definition Number_toString (x : number) : string :=
  match x with
  | Infinite neg => if neg then "-Infinity" else "Infinity"
  | Finite neg m e =>
      if m =? 0 then "0"
      else
        let '(xn, xd) := scale2 m 1 (- e) in
        let '(s, n, k) := shortest_from 20 m e (floor_log10 xn xd) 1 in
        let ds := string_of_Z s in
        let body :=
          if (k <=? n) && (n <=? 21) then ds +:+ zeros (Z.to_nat (n - k))
          else if (0 <? n) && (n <=? 21) then
            substring 0 (Z.to_nat n) ds +:+ "." +:+
            substring (Z.to_nat n) (Z.to_nat (k - n)) ds
          else if (-6 <? n) && (n <=? 0) then
            "0." +:+ zeros (Z.to_nat (- n)) +:+ ds
          else
            let ex := (if 0 <=? n - 1 then "+" else "-") +:+ string_of_Z (Z.abs (n - 1)) in
            if k =? 1 then ds +:+ "e" +:+ ex
            else substring 0 1 ds +:+ "." +:+
                 substring 1 (Z.to_nat (k - 1)) ds +:+ "e" +:+ ex
        in
        if neg then "-" +:+ body else body
  end.

(** What [JSON.parse] returns. Objects are plain objects whose properties
    are listed in the order of the text; a key written twice keeps the value
    written last (see [own_property]). *)
#[warnings="-register-all"]
Inductive json :=
  | JNull
  | JBool (b : bool)
  | JNumber (x : number)
  | JString (s : string)
  | JArray (elems : list json)
  | JObject (props : list (string * json)).

(** The values this program handles: what a property read or a template
    substitution can see. Besides JSON data these are [undefined], the
    built-in functions found on [Object.prototype], and [Object.prototype]
    itself (the value of [__proto__] on a plain object). *)
Inductive value :=
  | Undefined
  | Json (j : json)
  | NativeFunction (name : string)
  | ObjectPrototype.

Definition Str (s : string) : value := Json (JString s).

(** Exceptions, as the [catch] clause receives them. *)
Inductive exn :=
  | Error (message : string)
  | TypeError
  | SyntaxError
  | Rejection (reason : string).

Definition dq : string := String "034" "".
Definition nl : string := String "010" "".

Definition is_empty (s : string) : bool :=
  match s with EmptyString => true | _ => false end.

(** ToBoolean. *)
Definition ToBoolean (v : value) : bool :=
  match v with
  | Undefined => false
  | Json JNull => false
  | Json (JBool b) => b
  | Json (JNumber (Finite _ m _)) => negb (m =? 0)
  | Json (JNumber (Infinite _)) => true
  | Json (JString s) => negb (is_empty s)
  | Json (JArray _) | Json (JObject _) => true
  | NativeFunction _ | ObjectPrototype => true
  end.

(** [a || b]. *)
Definition or_else (a b : value) : value := if ToBoolean a then a else b.

(** Truthiness of a [string | null | undefined]. *)
Definition truthy (s : option string) : bool :=
  match s with Some s => negb (is_empty s) | None => false end.

(** ToString of a [string | null]. *)
Definition nullable_ToString (s : option string) : string :=
  match s with Some s => s | None => "null" end.

(** The own property [key] of an object literal or parsed object. *)
Fixpoint own_property {A} (props : list (string * A)) (key : string) : option A :=
  match props with
  | [] => None
  | (k, v) :: rest =>
      match own_property rest key with
      | Some w => Some w
      | None => if String.eqb k key then Some v else None
      end
  end.

(** The properties every plain object inherits from [Object.prototype]. *)
Definition Object_prototype_Get (key : string) : value :=
  if String.eqb key "__proto__" then ObjectPrototype
  else if String.eqb key "constructor" then NativeFunction "Object"
  else if existsb (String.eqb key)
       [ "__defineGetter__"; "__defineSetter__"; "__lookupGetter__";
         "__lookupSetter__"; "hasOwnProperty"; "isPrototypeOf";
         "propertyIsEnumerable"; "toLocaleString"; "toString"; "valueOf" ]
  then NativeFunction key
  else Undefined.

(** [table[key]] where [table] is a plain object with string-valued own
    properties. *)
Definition Get (table : gmap string string) (key : string) : value :=
  match table !! key with
  | Some s => Str s
  | None => Object_prototype_Get key
  end.

(** [data.name] on a parsed value, for a property name that the built-in
    prototypes of strings, numbers, booleans and arrays do not define (the
    source reads [reasoning] and [image_prompt]). Reading a property of
    [null] throws. *)
Definition GetV (data : json) (name : string) : exn + value :=
  match data with
  | JNull => inl TypeError
  | JObject props =>
      inr match own_property props name with
          | Some v => Json v
          | None => Object_prototype_Get name
          end
  | _ => inr Undefined
  end.

Fixpoint join (sep : string) (l : list string) : string :=
  match l with
  | [] => ""
  | [s] => s
  | s :: rest => s +:+ sep +:+ join sep rest
  end.

(** ToString on parsed data, [None] for a TypeError. An array is joined
    with commas, [null] elements giving the empty string. An object is
    converted by the inherited [Object.prototype.toString], unless it has an
    own property named [toString]: that one is data, hence not callable, and
    [valueOf] (own or inherited) yields no primitive either. *)
Fixpoint json_ToString (j : json) : option string :=
  match j with
  | JNull => Some "null"
  | JBool b => Some (if b then "true" else "false")
  | JNumber x => Some (Number_toString x)
  | JString s => Some s
  | JArray elems =>
      let item e := match e with JNull => Some "" | _ => json_ToString e end in
      (fix items (l : list json) : option (list string) :=
         match l with
         | [] => Some []
         | e :: rest =>
             match item e, items rest with
             | Some s, Some ss => Some (s :: ss)
             | _, _ => None
             end
         end) elems
      ≫= λ ss, Some (join "," ss)
  | JObject props =>
      match own_property props "toString" with
      | Some _ => None
      | None => Some "[object Object]"
      end
  end.

(** ToString, as a template literal applies it to a substitution. A
    built-in function is shown the way V8 (Node.js) shows it. *)
Definition ToString (v : value) : exn + string :=
  match v with
  | Undefined => inr "undefined"
  | Json j => match json_ToString j with Some s => inr s | None => inl TypeError end
  | NativeFunction name => inr ("function " +:+ name +:+ "() { [native code] }")
  | ObjectPrototype => inr "[object Object]"
  end.

(** *** JSON.parse *)

Definition is_ws (c : ascii) : bool :=
  match c with
  | " "%char | "009"%char | "010"%char | "013"%char => true
  | _ => false
  end.

Fixpoint skip_ws (s : string) : string :=
  match s with
  | String c r => if is_ws c then skip_ws r else s
  | EmptyString => s
  end.

Definition digit_value (c : ascii) : option Z :=
  let n := Z.of_N (N_of_ascii c) in
  if (48 <=? n) && (n <=? 57) then Some (n - 48) else None.

Definition hex_value (c : ascii) : option Z :=
  let n := Z.of_N (N_of_ascii c) in
  if (48 <=? n) && (n <=? 57) then Some (n - 48)
  else if (65 <=? n) && (n <=? 70) then Some (n - 55)
  else if (97 <=? n) && (n <=? 102) then Some (n - 87)
  else None.

(** One element of a string literal: a byte copied from the text, or a
    UTF-16 code unit written as an escape. *)
Inductive piece :=
  | Raw (c : ascii)
  | Unit16 (u : Z).

Definition byte (n : Z) : ascii := ascii_of_N (Z.to_N n).

(** UTF-8 form of a code point (a lone surrogate is encoded like any other
    three-byte code point). *)
Definition utf8 (cp : Z) : string :=
  if cp <? 128 then String (byte cp) ""
  else if cp <? 2048 then
    String (byte (192 + cp / 64)) (String (byte (128 + cp mod 64)) "")
  else if cp <? 65536 then
    String (byte (224 + cp / 4096))
      (String (byte (128 + (cp / 64) mod 64)) (String (byte (128 + cp mod 64)) ""))
  else
    String (byte (240 + cp / 262144))
      (String (byte (128 + (cp / 4096) mod 64))
         (String (byte (128 + (cp / 64) mod 64)) (String (byte (128 + cp mod 64)) ""))).

Fixpoint encode_pieces (l : list piece) : string :=
  match l with
  | [] => ""
  | Raw c :: rest => String c (encode_pieces rest)
  | Unit16 hi :: rest =>
      match rest with
      | Unit16 lo :: rest' =>
          if (55296 <=? hi) && (hi <? 56320) && (56320 <=? lo) && (lo <? 57344)
          then utf8 (65536 + (hi - 55296) * 1024 + (lo - 56320)) +:+ encode_pieces rest'
          else utf8 hi +:+ encode_pieces rest
      | _ => utf8 hi +:+ encode_pieces rest
      end
  end.

(** The characters of a string literal after its opening quote, up to and
    including the closing quote. *)
Fixpoint string_body (s : string) : option (list piece * string) :=
  match s with
  | EmptyString => None
  | String c r =>
      if Ascii.eqb c "034" then Some ([], r)
      else if Ascii.eqb c "092" then
        match r with
        | String e r' =>
            let simple (u : Z) :=
              match string_body r' with
              | Some (ps, rest) => Some (Unit16 u :: ps, rest)
              | None => None
              end in
            if Ascii.eqb e "034" then simple 34
            else if Ascii.eqb e "092" then simple 92
            else if Ascii.eqb e "/" then simple 47
            else if Ascii.eqb e "b" then simple 8
            else if Ascii.eqb e "f" then simple 12
            else if Ascii.eqb e "n" then simple 10
            else if Ascii.eqb e "r" then simple 13
            else if Ascii.eqb e "t" then simple 9
            else if Ascii.eqb e "u" then
              match r' with
              | String h1 (String h2 (String h3 (String h4 r''))) =>
                  match hex_value h1, hex_value h2, hex_value h3, hex_value h4,
                        string_body r'' with
                  | Some a, Some b, Some c, Some d, Some (ps, rest) =>
                      Some (Unit16 (((a * 16 + b) * 16 + c) * 16 + d) :: ps, rest)
                  | _, _, _, _, _ => None
                  end
              | _ => None
              end
            else None
        | EmptyString => None
        end
      else if (N_of_ascii c <? 32)%N then None
      else
        match string_body r with
        | Some (ps, rest) => Some (Raw c :: ps, rest)
        | None => None
        end
  end.

Definition string_literal (s : string) : option (string * string) :=
  match string_body s with
  | Some (ps, rest) => Some (encode_pieces ps, rest)
  | None => None
  end.

(** A run of decimal digits: their value added to [acc], their count, and
    the rest of the text. *)
Fixpoint digits (s : string) (acc count : Z) : Z * Z * string :=
  match s with
  | String c r =>
      match digit_value c with
      | Some d => digits r (acc * 10 + d) (count + 1)
      | None => (acc, count, s)
      end
  | EmptyString => (acc, count, s)
  end.

Definition number_literal (s : string) : option (number * string) :=
  let '(neg, s) :=
    match s with
    | String c r => if Ascii.eqb c "-" then (true, r) else (false, s)
    | EmptyString => (false, s)
    end in
  let int_part :=
    match s with
    | String c r =>
        if Ascii.eqb c "0" then Some (0, r)
        else match digit_value c with
             | Some _ => let '(i, _, r') := digits s 0 0 in Some (i, r')
             | None => None
             end
    | EmptyString => None
    end in
  match int_part with
  | None => None
  | Some (i, s) =>
      let frac :=
        match s with
        | String c r =>
            if Ascii.eqb c "." then
              let '(f, n, r') := digits r i 0 in
              if n =? 0 then None else Some (f, n, r')
            else Some (i, 0, s)
        | EmptyString => Some (i, 0, s)
        end in
      match frac with
      | None => None
      | Some (f, n, s) =>
          let expo :=
            match s with
            | String c r =>
                if Ascii.eqb c "e" || Ascii.eqb c "E" then
                  let '(eneg, r) :=
                    match r with
                    | String g r' =>
                        if Ascii.eqb g "-" then (true, r')
                        else if Ascii.eqb g "+" then (false, r')
                        else (false, r)
                    | EmptyString => (false, r)
                    end in
                  let '(x, k, r') := digits r 0 0 in
                  if k =? 0 then None else Some (if eneg then - x else x, r')
                else Some (0, s)
            | EmptyString => Some (0, s)
            end in
          match expo with
          | None => None
          | Some (x, s) => Some (number_of_decimal neg f (x - n), s)
          end
      end
  end.

Definition keyword (word : string) (v : json) (s : string) : option (json * string) :=
  if String.prefix word s
  then Some (v, substring (String.length word) (String.length s - String.length word) s)
  else None.

(** The next character after white space, and the text after it. *)
Definition next_char (s : string) : option (ascii * string) :=
  match skip_ws s with
  | String c r => Some (c, r)
  | EmptyString => None
  end.

(** One JSON value at the head of [s], and the text after it. Every
    recursive call is made on a shorter text with one unit of fuel less, so
    fuel above the length of the text is never used up
    (see [parser_fuel]). *)
Fixpoint parse_value (fuel : nat) (s : string) : option (json * string) :=
  match fuel with
  | O => None
  | S fuel =>
      match next_char s with
      | None => None
      | Some (c, r) =>
          if Ascii.eqb c "034" then
            match string_literal r with
            | Some (str, rest) => Some (JString str, rest)
            | None => None
            end
          else if Ascii.eqb c "[" then
            let elements :=
              match parse_value fuel r with
              | Some (v, r1) =>
                  match parse_elements fuel r1 with
                  | Some (vs, r2) => Some (JArray (v :: vs), r2)
                  | None => None
                  end
              | None => None
              end in
            match next_char r with
            | Some (c', rest) =>
                if Ascii.eqb c' "]" then Some (JArray [], rest) else elements
            | None => elements
            end
          else if Ascii.eqb c "{" then
            let members :=
              match parse_member fuel r with
              | Some (kv, r1) =>
                  match parse_members fuel r1 with
                  | Some (kvs, r2) => Some (JObject (kv :: kvs), r2)
                  | None => None
                  end
              | None => None
              end in
            match next_char r with
            | Some (c', rest) =>
                if Ascii.eqb c' "}" then Some (JObject [], rest) else members
            | None => members
            end
          else if Ascii.eqb c "t" then keyword "true" (JBool true) (String c r)
          else if Ascii.eqb c "f" then keyword "false" (JBool false) (String c r)
          else if Ascii.eqb c "n" then keyword "null" JNull (String c r)
          else
            match number_literal (String c r) with
            | Some (x, rest) => Some (JNumber x, rest)
            | None => None
            end
      end
  end
with parse_elements (fuel : nat) (s : string) : option (list json * string) :=
  match fuel with
  | O => None
  | S fuel =>
      match next_char s with
      | None => None
      | Some (c, r) =>
          if Ascii.eqb c "]" then Some ([], r)
          else if Ascii.eqb c "," then
            match parse_value fuel r with
            | Some (v, r1) =>
                match parse_elements fuel r1 with
                | Some (vs, r2) => Some (v :: vs, r2)
                | None => None
                end
            | None => None
            end
          else None
      end
  end
with parse_member (fuel : nat) (s : string) : option (string * json * string) :=
  match fuel with
  | O => None
  | S fuel =>
      match next_char s with
      | None => None
      | Some (c, r) =>
          if Ascii.eqb c "034" then
            match string_literal r with
            | Some (key, r1) =>
                match next_char r1 with
                | Some (c', r2) =>
                    if Ascii.eqb c' ":" then
                      match parse_value fuel r2 with
                      | Some (v, r3) => Some (key, v, r3)
                      | None => None
                      end
                    else None
                | None => None
                end
            | None => None
            end
          else None
      end
  end
with parse_members (fuel : nat) (s : string) : option (list (string * json) * string) :=
  match fuel with
  | O => None
  | S fuel =>
      match next_char s with
      | None => None
      | Some (c, r) =>
          if Ascii.eqb c "}" then Some ([], r)
          else if Ascii.eqb c "," then
            match parse_member fuel r with
            | Some (kv, r1) =>
                match parse_members fuel r1 with
                | Some (kvs, r2) => Some (kv :: kvs, r2)
                | None => None
                end
            | None => None
            end
          else None
      end
  end.

(** [JSON.parse(text)] without a reviver: the value, or a SyntaxError. *)
Definition JSON_parse (text : string) : exn + json :=
  match parse_value (S (String.length text)) text with
  | Some (v, rest) => if is_empty (skip_ws rest) then inr v else inl SyntaxError
  | None => inl SyntaxError
  end.

End JS.

Export JS.

(** ** The Vertex AI SDK, as the source uses it *)

Module VertexAI.

Record Part := { text : option string }.
Record Content := { role : string; parts : list Part }.
Record GenerateContentCandidate := { content : Content }.
Record GenerateContentResponse := { candidates : option (list GenerateContentCandidate) }.
Record GenerateContentResult := { response : GenerateContentResponse }.

Record GenerationConfig := { responseMimeType : string }.
Record GenerateContentRequest := {
  contents : list Content;
  systemInstruction : string;
  generationConfig : GenerationConfig
}.

(** A result whose first candidate carries [t] as the text of its first part. *)
Definition result_of_text (t : option string) : GenerateContentResult :=
  {| response := {| candidates :=
       Some [ {| content := {| role := "model"; parts := [ {| text := t |} ] |} |} ] |} |}.

End VertexAI.

Export VertexAI.

(** ** Effects: exceptions and the console *)

#[global] Instance exn_ret : MRet (sum exn) := λ A a, inr a.
#[global] Instance exn_bind : MBind (sum exn) := λ A B k r,
  match r with inr a => k a | inl e => inl e end.

Inductive console_entry :=
  | ConsoleLog (message : string)
  | ConsoleError (message : string) (error : exn).

(** A computation that may write to the console and either returns or
    throws (for an [async] function: resolves or rejects). *)
Definition M (A : Type) : Type := list console_entry → (exn + A) * list console_entry.

Definition throw {A} (e : exn) : M A := λ out, (inl e, out).
Definition try_catch {A} (body : M A) (handler : exn → M A) : M A :=
  λ out, match body out with
         | (inr a, out') => (inr a, out')
         | (inl e, out') => handler e out'
         end.
Definition lift {A} (r : exn + A) : M A := λ out, (r, out).
Definition console_log (message : string) : M unit :=
  λ out, (inr tt, out ++ [ConsoleLog message]).
Definition console_error (message : string) (error : exn) : M unit :=
  λ out, (inr tt, out ++ [ConsoleError message error]).

#[global] Instance M_ret : MRet M := λ A a out, (inr a, out).
#[global] Instance M_bind : MBind M := λ A B k m out,
  match m out with
  | (inr a, out') => k a out'
  | (inl e, out') => (inl e, out')
  end.

(** ** Example inputs

    The keyword tables of [./festival-data] are not among the sources at
    hand: the functions below take them as parameters and the theorems hold
    for every pair of tables. These two are sample tables to run the
    functions on. *)

Definition sample_industryKeywords : gmap string string :=
  list_to_map
    [ ("Education", "books, classroom, graduation caps");
      ("Real Estate", "modern architecture, keys, skyline") ].

Definition sample_eventKeywords : gmap string string :=
  list_to_map
    [ ("Republic Day", "tricolor flag, India Gate, saffron white green");
      ("Lohri", "bonfire, dhol, winter night") ].

(** An endpoint whose first candidate carries the text [t]. *)
Definition upstream_text (t : string) (_ : GenerateContentRequest)
  : exn + GenerateContentResult :=
  inr (result_of_text (Some t)).

(** An endpoint that answers without any candidate text. *)
Definition upstream_no_text (_ : GenerateContentRequest)
  : exn + GenerateContentResult :=
  inr (result_of_text None).

(** An endpoint whose call fails. *)
Definition upstream_down (_ : GenerateContentRequest)
  : exn + GenerateContentResult :=
  inl (Rejection "503 Service Unavailable").

(** A well-formed answer of the creative director. *)
Definition sample_answer : string :=
  "{" +:+ dq +:+ "reasoning" +:+ dq +:+ ": " +:+ dq +:+ "B2C, warm" +:+ dq +:+ ", "
      +:+ dq +:+ "image_prompt" +:+ dq +:+ ": " +:+ dq +:+ "A bonfire at dusk" +:+ dq +:+ ", "
      +:+ dq +:+ "headline_suggestion" +:+ dq +:+ ": " +:+ dq +:+ "Warm Lohri Wishes" +:+ dq +:+ ", "
      +:+ dq +:+ "color_palette_hex" +:+ dq +:+ ": [" +:+ dq +:+ "#ff6600" +:+ dq +:+ "]}".

(** ** The prompt engine *)

Definition CREATIVE_DIRECTOR_SYSTEM_PROMPT : string :=
  nl +:+ join nl
  [ "You are the Lead Creative Director at a high-end ad agency. Your goal is to translate a vague user request into a commercially viable visual asset using strategic reasoning.";
    "";
    "### PHASE 1: STRATEGIC REASONING";
    "Analyze the Input:";
    "1. **Commercial Intent:** Is this B2B (trust) or B2C (emotion)?";
    "2. **Visual Hierarchy:** Where must text sit? (Dark images→white text)";
    "3. **The 'Click' Factor:** What visual element stops the scroll?";
    "4. **Brand Fit:** How does this align with the brand style?";
    "";
    "### PHASE 2: ASSET GENERATION";
    "Generate the JSON output below.";
    "";
    "**Image Prompt Rules (CRITICAL for Imagen-4):**";
    "- ALWAYS specify: Lighting (Volumetric, Studio strobe, Golden hour), Quality (8k, Octane render, Sony A7R IV)";
    "- **NEGATIVE SPACE:** If text is needed, specify a clean, low-detail area.";
    "- NO: Watermarks, logos, split screens, borders, collages.";
    "- COMPOSITION: Main subject centered or third-rule.";
    "";
    "### REQUIRED JSON OUTPUT:";
    "{";
    "  " +:+ dq +:+ "reasoning" +:+ dq +:+ ": " +:+ dq +:+ "Brief strategy explanation" +:+ dq +:+ ",";
    "  " +:+ dq +:+ "image_prompt" +:+ dq +:+ ": " +:+ dq +:+ "Detailed Imagen-4 prompt with lighting, camera, composition. Max 80 words." +:+ dq +:+ ",";
    "  " +:+ dq +:+ "headline_suggestion" +:+ dq +:+ ": " +:+ dq +:+ "Max 5 words catchy headline" +:+ dq +:+ ",";
    "  " +:+ dq +:+ "color_palette_hex" +:+ dq +:+ ": [" +:+ dq +:+ "#hex1" +:+ dq +:+ ", " +:+ dq +:+ "#hex2" +:+ dq +:+ "]";
    "}";
    "" ].

(** [result.response.candidates?.[0].content.parts[0].text]: the optional
    chain yields [undefined] when there is no [candidates] array at all; an
    empty array, or a first candidate without parts, makes the next property
    read throw. *)
Definition first_candidate_text (result : GenerateContentResult) : exn + option string :=
  match candidates (response result) with
  | None => inr None
  | Some [] => inl TypeError
  | Some (c :: _) =>
      match parts (content c) with
      | [] => inl TypeError
      | p :: _ => inr (text p)
      end
  end.

Definition getEventContext (event : string) : value :=
  let map : gmap string string :=
    list_to_map
      [ ("Lohri", "North Indian harvest festival, bonfires, winter night");
        ("Makar Sankranti", "Day festival, kite flying, sun, harvest");
        ("Republic Day", "National pride, military parade, flag colors") ] in
  or_else (Get map event) (Str "Celebration").

(** The block appended to the model's prompt, up to the style clause. *)
Definition TECHNICAL_SPECS : string :=
  " " +:+ nl +:+
  "    " +:+ nl +:+
  "    TECHNICAL SPECS:" +:+ nl +:+
  "    - High quality, 8k, photorealistic, professional photography" +:+ nl +:+
  "    - NO text, NO watermarks, NO borders, NO frames" +:+ nl +:+
  "    - Seamless, cinematic lighting, wide angle" +:+ nl +:+
  "    - Style: ".

(** [brandStyleContext ? brandStyleContext : 'Modern, clean, corporate'] *)
Definition style_clause (brandStyleContext : option string) : string :=
  if truthy brandStyleContext then nullable_ToString brandStyleContext
  else "Modern, clean, corporate".

(** The brief of step 1. *)
Definition client_brief (event industry : string) (brandStyleContext : option string)
  : exn + string :=
  context ← ToString (getEventContext event);
  mret (
    nl +:+
    "    CLIENT BRIEF:" +:+ nl +:+
    "    - Event: " +:+ event +:+ " (Context: " +:+ context +:+ ")" +:+ nl +:+
    "    - Industry: " +:+ industry +:+ nl +:+
    "    - Brand Style Guide: " +:+
         (if truthy brandStyleContext then nullable_ToString brandStyleContext
          else "No specific guide. Aim for high-end, clean, professional.") +:+ nl +:+
    "    " +:+ nl +:+
    "    TASK:" +:+ nl +:+
    "    Write a photorealistic image generation prompt for a social media post background. " +:+ nl +:+
    "    It must visually represent the *feeling* of the event mixed with the *aesthetics* of the industry." +:+ nl +:+
    "    ").

Definition creative_director_request (brief : string) : GenerateContentRequest :=
  {| contents := [ {| role := "user"; parts := [ {| text := Some brief |} ] |} ];
     systemInstruction := CREATIVE_DIRECTOR_SYSTEM_PROMPT;
     generationConfig := {| responseMimeType := "application/json" |} |}.

(** ** Vocabulary of the specification *)

(** [hay.includes(needle)]: [needle] occurs in [hay]. *)
Fixpoint includes (needle hay : string) : bool :=
  String.prefix needle hay ||
  match hay with
  | String _ rest => includes needle rest
  | EmptyString => false
  end.

(** The fallback template in the words of the specification, its sentences
    separated by single spaces. *)
Definition spec_static_template (event industry ind evt : string) : string :=
  event +:+ " social media background, " +:+ industry +:+ " style. Visuals: " +:+
  ind +:+ ", " +:+ evt +:+ ". High quality, photorealistic, 8k. NO TEXT.".

(** The fallback template as the source lays it out: each sentence ends in
    a space and a line break, and the next line is indented by two spaces. *)
Definition static_template (event industry ind evt : string) : string :=
  event +:+ " social media background, " +:+ industry +:+ " style. " +:+ nl +:+
  "  Visuals: " +:+ ind +:+ ", " +:+ evt +:+ ". " +:+ nl +:+
  "  High quality, photorealistic, 8k. NO TEXT.".

(** The style clause in the words of the specification: the brand-style
    context when it is present (not null), else the default. *)
Definition spec_style_clause (brandStyleContext : option string) : string :=
  match brandStyleContext with
  | Some context => context
  | None => "Modern, clean, corporate"
  end.

(** The CreativeDirectorResponse shape of the specification:
    [{reasoning, image_prompt, headline_suggestion, color_palette_hex}]. *)
Definition is_string (j : json) : bool :=
  match j with JString _ => true | _ => false end.

Definition has_field (check : json → bool) (props : list (string * json)) (name : string)
  : bool :=
  match own_property props name with Some v => check v | None => false end.

Definition is_CreativeDirectorResponse (data : json) : bool :=
  match data with
  | JObject props =>
      has_field is_string props "reasoning" &&
      has_field is_string props "image_prompt" &&
      has_field is_string props "headline_suggestion" &&
      has_field (λ v, match v with JArray l => forallb is_string l | _ => false end)
                props "color_palette_hex"
  | _ => false
  end.

Definition parses_as_CreativeDirectorResponse (text : string) : bool :=
  match JSON_parse text with
  | inr data => is_CreativeDirectorResponse data
  | inl _ => false
  end.

(** ** The pages and scripts: state, effects and awaited results

    The handlers of the React components and the migration script are
    functions of the component state and of the results of the calls they
    await; they return the new state and the list of the calls, console lines
    and events they made, in order. *)

(** A thrown value, as far as a handler looks at it: its [message]. *)
Inductive thrown := Threw (message : value).

Definition message_of (e : thrown) : value := let 'Threw m := e in m.

(** [new Error(message)] *)
Definition new_Error (message : string) : thrown := Threw (Str message).

(** The result of [fetch]: the [ok] flag, and what [response.json()] gives. *)
Record Response := { ok : bool; body : thrown + json }.

(** One argument of a console call: a text, a value, an object literal, a
    caught value, the [code] of a caught value, the [status] of a
    response. *)
Inductive log_arg :=
  | Text (s : string)
  | Val (v : value)
  | Obj (fields : list (string * value))
  | Caught (e : thrown)
  | CodeOf (e : thrown)
  | StatusOf (response : Response).

(** What a handler does to the world outside its component. [Fetched url
    None] is [fetch(url)]; [Fetched url (Some fields)] is a POST of the
    object [fields], serialized with [JSON.stringify], with the content type
    [application/json]. [Rpc fn param arg] is [supabase.rpc(fn, {param: arg})],
    [Pushed path] is [router.push(path)] and [Removed key] is
    [sessionStorage.removeItem(key)]. *)
Inductive effect :=
  | ConsoleLogged (args : list log_arg)
  | ConsoleErrored (args : list log_arg)
  | Fetched (url : string) (post : option (list (string * value)))
  | Dispatched (event : string)
  | SignedUp (email password : string)
  | Called (callback : string)
  | Rpc (fn param arg : string)
  | Exited (code : Z)
  | Pushed (path : string)
  | Removed (key : string).

(** A computation over a component state [S]: it returns or throws, and
    leaves a state and a longer list of effects. *)
Definition Eff (S A : Type) : Type := S * list effect → (thrown + A) * (S * list effect).

#[global] Instance thrown_ret : MRet (sum thrown) := λ A a, inr a.
#[global] Instance thrown_bind : MBind (sum thrown) := λ A B k r,
  match r with inr a => k a | inl e => inl e end.

#[global] Instance Eff_ret {S} : MRet (Eff S) := λ A a w, (inr a, w).
#[global] Instance Eff_bind {S} : MBind (Eff S) := λ A B k m w,
  match m w with
  | (inr a, w') => k a w'
  | (inl e, w') => (inl e, w')
  end.

Definition raise {S A} (e : thrown) : Eff S A := λ w, (inl e, w).
(** The value of an awaited call, or its exception. *)
Definition await {S A} (r : thrown + A) : Eff S A := λ w, (r, w).
Definition emit {S} (e : effect) : Eff S unit := λ w, (inr tt, (w.1, w.2 ++ [e])).
(** The state of the component, and a state setter. *)
Definition get {S} : Eff S S := λ w, (inr w.1, w).
Definition update {S} (f : S → S) : Eff S unit := λ w, (inr tt, (f w.1, w.2)).
Definition attempt {S A} (body : Eff S A) (handler : thrown → Eff S A) : Eff S A :=
  λ w, match body w with
       | (inr a, w') => (inr a, w')
       | (inl e, w') => handler e w'
       end.
(** [try { body } finally { cleanup }] *)
Definition finally {S A} (body : Eff S A) (cleanup : Eff S unit) : Eff S A :=
  λ w, match body w with
       | (r, w') =>
           match cleanup w' with
           | (inr _, w'') => (r, w'')
           | (inl e, w'') => (inl e, w'')
           end
       end.

(** [data.name] with the message V8 gives the TypeError on [null]. *)
Definition read (data : json) (name : string) : thrown + value :=
  match GetV data name with
  | inr v => inr v
  | inl _ =>
      inl (new_Error ("Cannot read properties of null (reading '" +:+ name +:+ "')"))
  end.

(** ToString with the message V8 gives the TypeError. *)
Definition to_string (v : value) : thrown + string :=
  match ToString v with
  | inr s => inr s
  | inl _ => inl (new_Error "Cannot convert object to primitive value")
  end.

(** A [string | undefined] as a value. *)
Definition optional (s : option string) : value :=
  match s with Some s => Str s | None => Undefined end.

(** The user of the auth context. *)
Record User := { user_id : string; user_email : option string }.

(** *** The hook [useBrandReady] *)

Module BrandReady.

Record state := { isReady : bool; loading : bool }.

(** [useState(false)], [useState(true)] *)
Definition initial : state := {| isReady := false; loading := true |}.

Definition setIsReady (b : bool) : Eff state unit :=
  update (λ s, {| isReady := b; loading := loading s |}).
Definition setLoading (b : bool) : Eff state unit :=
  update (λ s, {| isReady := isReady s; loading := b |}).

Definition checkBrandReady (fetch : string → thrown + Response) (user : User)
  : Eff state unit :=
  attempt
    (let url := "/api/profiles/" +:+ user_id user in
     emit (Fetched url None);;
     response ← await (fetch url);
     if negb (ok response) then
       setIsReady false;; setLoading false
     else
       profile ← await (body response);
       industry_type ← await (read profile "industry_type");
       let ready := ToBoolean industry_type in
       setIsReady ready;; setLoading false)
    (λ error,
       emit (ConsoleErrored [Text "❌ Error checking brand ready status:"; Caught error]);;
       setIsReady false;; setLoading false).

Definition handleProfileReady : Eff state unit := setIsReady true.

(** The body of the effect, with [checkBrandReady] run to its end. It
    returns whether [handleProfileReady] now listens for the window event
    [userProfileReady]. *)
Definition effect_body (fetch : string → thrown + Response)
    (authLoading : bool) (user : option User) : Eff state bool :=
  if authLoading then setLoading true;; mret false
  else
    match user with
    | None => setIsReady false;; setLoading false;; mret false
    | Some user => checkBrandReady fetch user;; mret true
    end.

(** A window event reaching the hook. *)
Definition window_event (listening : bool) (event : string) : Eff state unit :=
  if listening && String.eqb event "userProfileReady" then handleProfileReady
  else mret tt.

(** The events among [effects] that were dispatched on the window, reaching
    the hook one after the other. *)
Fixpoint deliver (listening : bool) (effects : list effect) : Eff state unit :=
  match effects with
  | [] => mret tt
  | Dispatched event :: rest => window_event listening event;; deliver listening rest
  | _ :: rest => deliver listening rest
  end.

End BrandReady.

(** *** The component [BrandOnboardingWrapper] *)

Module Onboarding.

Record state := { showModal : bool; userEmail : value; isReady : bool }.

(** [useState(false)], [useState(null)], [useState(false)] *)
Definition initial : state :=
  {| showModal := false; userEmail := Json JNull; isReady := false |}.

Definition setShowModal (b : bool) : Eff state unit :=
  update (λ s, {| showModal := b; userEmail := userEmail s; isReady := isReady s |}).
Definition setUserEmail (v : value) : Eff state unit :=
  update (λ s, {| showModal := showModal s; userEmail := v; isReady := isReady s |}).
Definition setIsReady (b : bool) : Eff state unit :=
  update (λ s, {| showModal := showModal s; userEmail := userEmail s; isReady := b |}).

Definition checkUserProfile (fetch : string → thrown + Response) (user : User)
  : Eff state unit :=
  attempt
    (let url := "/api/profiles/" +:+ user_id user in
     emit (Fetched url None);;
     response ← await (fetch url);
     if negb (ok response) then
       emit (ConsoleErrored [Text "Failed to fetch profile"])
     else
       profile ← await (body response);
       industry_type ← await (read profile "industry_type");
       brand_logo_url ← await (read profile "brand_logo_url");
       emit (ConsoleLogged
               [ Text "👤 Profile check:";
                 Obj [ ("hasIndustry", Json (JBool (ToBoolean industry_type)));
                       ("hasLogo", Json (JBool (ToBoolean brand_logo_url)));
                       ("industry", industry_type);
                       ("logo", brand_logo_url) ] ]);;
       email ← await (read profile "email");
       setUserEmail (or_else (or_else email (optional (user_email user))) (Json JNull));;
       let needsOnboarding := negb (ToBoolean industry_type) in
       if needsOnboarding then
         emit (ConsoleLogged [Text "🔔 User needs onboarding"]);;
         setShowModal true;;
         setIsReady false
       else
         emit (ConsoleLogged [Text "✅ User profile is complete"]);;
         setShowModal false;;
         setIsReady true)
    (λ error, emit (ConsoleErrored [Text "❌ Error checking profile:"; Caught error])).

(** The body of the effect, with [checkUserProfile] run to its end. *)
Definition effect_body (fetch : string → thrown + Response)
    (authLoading : bool) (user : option User) : Eff state unit :=
  match authLoading, user with
  | false, Some user => checkUserProfile fetch user
  | _, _ => setShowModal false
  end.

(** It runs in the browser, where [window] is defined. *)
Definition handleOnboardingComplete : Eff state unit :=
  emit (ConsoleLogged [Text "✅ Onboarding completed"]);;
  setShowModal false;;
  setIsReady true;;
  emit (Dispatched "userProfileReady").

(** What the component renders: nothing, or the modal with its [isOpen]. *)
Definition render (authLoading : bool) (user : option User) (s : state) : option bool :=
  match user with
  | Some _ => if authLoading then None else Some (showModal s)
  | None => None
  end.

(** What can happen to a mounted wrapper. *)
Inductive event :=
  | Effect (fetch : string → thrown + Response) (authLoading : bool) (user : option User)
  | Complete.

Definition step (e : event) : Eff state unit :=
  match e with
  | Effect fetch authLoading user => effect_body fetch authLoading user
  | Complete => handleOnboardingComplete
  end.

Fixpoint run (events : list event) (w : state * list effect) : state * list effect :=
  match events with
  | [] => w
  | e :: rest => run rest (step e w).2
  end.

End Onboarding.

(** Why a profile cannot be had: the request throws, the response is not
    ok, its body is not JSON, or the body is [null]. *)
Inductive profile_unavailable (fetch : string → thrown + Response) (user : User) : Prop :=
  | request_throws error :
      fetch ("/api/profiles/" +:+ user_id user) = inl error →
      profile_unavailable fetch user
  | response_not_ok response :
      fetch ("/api/profiles/" +:+ user_id user) = inr response →
      ok response = false →
      profile_unavailable fetch user
  | body_unreadable response error :
      fetch ("/api/profiles/" +:+ user_id user) = inr response →
      ok response = true → body response = inl error →
      profile_unavailable fetch user
  | body_is_null response :
      fetch ("/api/profiles/" +:+ user_id user) = inr response →
      ok response = true → body response = inr JNull →
      profile_unavailable fetch user.

(** *** The component [SimpleSignUpModal] *)

Module SignUp.

(** [s.length]: the number of UTF-16 code units of a text held as UTF-8. A
    continuation byte counts for nothing, the first byte of a four-byte
    sequence for two units, any other byte for one. *)
Fixpoint length (s : string) : nat :=
  match s with
  | EmptyString => O
  | String c r =>
      let b := N_of_ascii c in
      ((if (b <? 128)%N then 1
        else if (b <? 192)%N then 0
        else if (b <? 240)%N then 1
        else 2) + length r)%nat
  end.

Record state := { email : string; password : string; loading : bool; error : value }.

(** [useState('')], [useState('')], [useState(false)], [useState(null)] *)
Definition initial : state :=
  {| email := ""; password := ""; loading := false; error := Json JNull |}.

Definition setLoading (b : bool) : Eff state unit :=
  update (λ s, {| email := email s; password := password s; loading := b;
                  error := error s |}).
Definition setError (v : value) : Eff state unit :=
  update (λ s, {| email := email s; password := password s; loading := loading s;
                  error := v |}).

(** What [supabase.auth.signUp] resolves to: [data.user] (its id) and [error]. *)
Record SignUpResult := { user : option string; signUpError : option thrown }.

Definition zero : value := Json (JNumber (Finite false 0 0)).

(** [signUp], [fetch] and [onSuccess] are what the awaited calls and the
    callback of the parent give; a thrown value is taken to be an object, as
    the errors of the platform and of the client library are. *)
Definition handleEmailSignUp
    (signUp : string → string → thrown + SignUpResult)
    (fetch : string → list (string * value) → thrown + Response)
    (onSuccess : thrown + unit) : Eff state unit :=
  emit (Called "e.preventDefault");;
  s ← get;
  if is_empty (email s) || is_empty (password s) then
    setError (Str "Please enter email and password")
  else if (length (password s) <? 6)%nat then
    setError (Str "Password must be at least 6 characters")
  else
    finally
      (attempt
         (setLoading true;;
          setError (Json JNull);;
          emit (SignedUp (email s) (password s));;
          result ← await (signUp (email s) (password s));
          match signUpError result with
          | Some signUpError => raise signUpError
          | None =>
              match user result with
              | None => raise (new_Error "User creation failed")
              | Some userId =>
                  let profile :=
                    [ ("id", Str userId); ("email", Str (email s));
                      ("subscription_plan", Str "free");
                      ("free_images_generated", zero) ] in
                  emit (Fetched "/api/profiles" (Some profile));;
                  profileResponse ← await (fetch "/api/profiles" profile);
                  if negb (ok profileResponse) then
                    profileError ← await (body profileResponse);
                    emit (ConsoleErrored
                            [Text "❌ Profile save error:"; Val (Json profileError)]);;
                    reason ← await (read profileError "error");
                    message ← await (to_string
                                       (or_else reason (Str "Failed to save profile")));
                    raise (new_Error message)
                  else
                    emit (ConsoleLogged [Text "✅ Sign up successful"]);;
                    emit (Called "onSuccess");;
                    await onSuccess
              end
          end)
         (λ err,
            emit (ConsoleErrored [Text "❌ Sign up error:"; Caught err]);;
            setError (or_else (message_of err)
                        (Str "Sign up failed. Please try again."))))
      (setLoading false).

Definition handleGoogleSignIn (signInWithGoogle onSuccess : thrown + unit)
  : Eff state unit :=
  attempt
    (setLoading true;;
     setError (Json JNull);;
     emit (Called "signInWithGoogle");;
     await signInWithGoogle;;
     emit (Called "onSuccess");;
     await onSuccess)
    (λ err,
       emit (ConsoleErrored [Text "❌ Google sign-in error:"; Caught err]);;
       setError (or_else (message_of err)
                   (Str "Google sign-in failed. Please try again."));;
       setLoading false).

End SignUp.

(** *** The page [AuthCallback] *)

Module AuthCallback.

(** [data.session.user], as far as the page reads it: [id], [email] and
    [app_metadata?.provider]. *)
Record SessionUser := { id : option string; email : option string; provider : value }.

(** What [supabase.auth.getSession] resolves to: [data.session] (null, or a
    session with its [user], which the page takes to be possibly absent) and
    [error]. *)
Record SessionResult := {
  session : option (option SessionUser);
  sessionError : option thrown
}.

(** [user?.id], [user?.email], [user?.app_metadata?.provider] *)
Definition userId (user : option SessionUser) : option string := user ≫= id.
Definition userEmail (user : option SessionUser) : option string := user ≫= email.
Definition userProvider (user : option SessionUser) : value :=
  match user with Some u => provider u | None => Undefined end.

(** The id where [user?.id] is truthy. *)
Definition truthy_id (user : option SessionUser) : option string :=
  match userId user with
  | Some id => if is_empty id then None else Some id
  | None => None
  end.

(** [sessionStorage.getItem('is_new_signup') === 'true'] *)
Definition is_true (item : option string) : bool :=
  match item with Some s => String.eqb s "true" | None => false end.

(** [profileResult.profile?.id] *)
Definition profile_id (profileResult : json) : thrown + value :=
  profile ← read profileResult "profile";
  match profile with
  | Undefined | Json JNull => inr Undefined
  | Json profile => read profile "id"
  | _ => inr Undefined
  end.

(** The profile of a new signup, and the one of a login without profile. *)
Definition new_profile (id : string) (user : option SessionUser) : list (string * value) :=
  [ ("id", Str id); ("email", or_else (optional (userEmail user)) (Json JNull));
    ("subscription_plan", Str "free");
    ("free_images_generated", Json (JNumber (Finite false 0 0))) ].

Definition minimal_profile (id : string) (user : option SessionUser)
  : list (string * value) :=
  [ ("id", Str id); ("email", or_else (optional (userEmail user)) (Json JNull)) ].

(** [handleCallback], run in the browser. [createClient], [getSession],
    [getItem], [profileQuery], [fetch] and [removeItem] are what the calls of
    these names give; [profileQuery id] is the [data] of the query for the
    profile with this id. [router.push] is taken to return. *)
Definition handleCallback
    (createClient : thrown + unit)
    (getSession : thrown + SessionResult)
    (getItem : thrown + option string)
    (profileQuery : string → thrown + json)
    (fetch : string → list (string * value) → thrown + Response)
    (removeItem : thrown + unit) : Eff unit unit :=
  attempt
    (await createClient;;
     result ← await getSession;
     match sessionError result with
     | Some error => raise error
     | None =>
         match session result with
         | Some user =>
             item ← await getItem;
             let isNewSignup := is_true item in
             emit (ConsoleLogged
                     [ Text "🔍 Auth Callback - Google User Session:";
                       Obj [ ("userId", optional (userId user));
                             ("email", optional (userEmail user));
                             ("userProvider", userProvider user);
                             ("isNewSignup", Json (JBool isNewSignup)) ] ]);;
             existingProfile ←
               match truthy_id user with
               | Some id =>
                   attempt
                     (profile ← await (profileQuery id);
                      emit (ConsoleLogged
                              [ Text "🔎 Profile check result:";
                                Obj [("exists", Json (JBool (ToBoolean (Json profile))))] ]);;
                      mret profile)
                     (λ checkError,
                        emit (ConsoleLogged
                                [Text "Profile check error:"; CodeOf checkError]);;
                        mret JNull)
               | None => mret JNull
               end;
             match truthy_id user with
             | Some id =>
                 if isNewSignup then
                   emit (ConsoleLogged
                           [Text "✨ Processing new Google signup for user:"; Val (Str id)]);;
                   attempt
                     (let profileData := new_profile id user in
                      emit (ConsoleLogged
                              [ Text "💾 CALLBACK - Creating Google profile with:";
                                Obj profileData ]);;
                      emit (Fetched "/api/profiles" (Some profileData));;
                      profileResponse ← await (fetch "/api/profiles" profileData);
                      emit (ConsoleLogged
                              [ Text "📤 Profile API response status:";
                                StatusOf profileResponse ]);;
                      if negb (ok profileResponse) then
                        profileError ← await (body profileResponse);
                        emit (ConsoleErrored
                                [Text "❌ Profile save error:"; Val (Json profileError)])
                      else
                        profileResult ← await (body profileResponse);
                        created ← await (profile_id profileResult);
                        emit (ConsoleLogged
                                [ Text "✅ Profile created successfully:";
                                  Obj [("id", created)] ]))
                     (λ profileError,
                        emit (ConsoleErrored
                                [Text "❌ Profile creation exception:"; Caught profileError]))
                 else if negb (ToBoolean (Json existingProfile)) then
                   emit (ConsoleLogged
                           [ Text "👤 Creating minimal profile for existing user (non-signup login):";
                             Val (Str id) ]);;
                   attempt
                     (let profileData := minimal_profile id user in
                      emit (Fetched "/api/profiles" (Some profileData));;
                      profileResponse ← await (fetch "/api/profiles" profileData);
                      if negb (ok profileResponse) then
                        profileError ← await (body profileResponse);
                        emit (ConsoleErrored
                                [Text "❌ Profile save error:"; Val (Json profileError)])
                      else
                        profileResult ← await (body profileResponse);
                        created ← await (profile_id profileResult);
                        emit (ConsoleLogged [Text "✅ Minimal profile created:"; Val created]))
                     (λ profileError,
                        emit (ConsoleErrored
                                [Text "❌ Profile creation exception:"; Caught profileError]))
                 else
                   existingId ← await (read existingProfile "id");
                   emit (ConsoleLogged [Text "👤 User already has profile:"; Val existingId])
             | None => mret tt
             end;;
             emit (Removed "is_new_signup");;
             await removeItem;;
             emit (ConsoleLogged [Text "✅ Cleared pending data from sessionStorage"]);;
             emit (Pushed "/")
         | None => emit (Pushed "/login")
         end
     end)
    (λ error, emit (Pushed "/login")).

(** The navigations and the requests among the effects. *)
Definition navigations (effects : list effect) : list effect :=
  List.filter (λ e, match e with Pushed _ => true | _ => false end) effects.

Definition requests (effects : list effect) : list effect :=
  List.filter (λ e, match e with Fetched _ _ => true | _ => false end) effects.

End AuthCallback.

(** *** The script [apply-brand-style-context-migration.js] *)

Module Migration.

(** [s.split(sep)] for a separator of one character. *)
Fixpoint split (sep : ascii) (s : string) : list string :=
  match s with
  | EmptyString => [""]
  | String c r =>
      if Ascii.eqb c sep then "" :: split sep r
      else
        match split sep r with
        | piece :: pieces => String c piece :: pieces
        | [] => [String c ""]
        end
  end.

(** White space and line terminators of ECMAScript in UTF-8, by the
    number of bytes: U+0009 to U+000D and U+0020; U+00A0; U+1680, U+2000 to
    U+200A, U+2028, U+2029, U+202F, U+205F, U+3000 and U+FEFF. *)
Definition space1 (c : ascii) : bool :=
  let b := N_of_ascii c in ((9 <=? b) && (b <=? 13) || (b =? 32))%N.

Definition space2 (c1 c2 : ascii) : bool :=
  ((N_of_ascii c1 =? 194) && (N_of_ascii c2 =? 160))%N.

Definition space3 (c1 c2 c3 : ascii) : bool :=
  let b1 := N_of_ascii c1 in
  let b2 := N_of_ascii c2 in
  let b3 := N_of_ascii c3 in
  ((b1 =? 225) && (b2 =? 154) && (b3 =? 128)
   || (b1 =? 226) && (b2 =? 128) &&
      ((128 <=? b3) && (b3 <=? 138) || (b3 =? 168) || (b3 =? 169) || (b3 =? 175))
   || (b1 =? 226) && (b2 =? 129) && (b3 =? 159)
   || (b1 =? 227) && (b2 =? 128) && (b3 =? 128)
   || (b1 =? 239) && (b2 =? 187) && (b3 =? 191))%N.

(** The text without the white space at its head; with [backwards], for a
    text given last byte first. *)
Fixpoint strip (backwards : bool) (s : string) : string :=
  match s with
  | String c1 r1 =>
      if space1 c1 then strip backwards r1
      else
        match r1 with
        | String c2 r2 =>
            if (if backwards then space2 c2 c1 else space2 c1 c2)
            then strip backwards r2
            else
              match r2 with
              | String c3 r3 =>
                  if (if backwards then space3 c3 c2 c1 else space3 c1 c2 c3)
                  then strip backwards r3
                  else s
              | EmptyString => s
              end
        | EmptyString => s
        end
  | EmptyString => s
  end.

(** [s.trim()] *)
Definition trim (s : string) : string :=
  String.rev (strip true (String.rev (strip false s))).

(** [sql.split(';').filter(s => s.trim())] *)
Definition statements (sql : string) : list string :=
  List.filter (λ s, negb (is_empty (trim s))) (split ";" sql).

Definition log (line : string) : Eff unit unit := emit (ConsoleLogged [Text line]).

(** The loop over the statements. [rpc fn param arg] is what
    [supabase.rpc(fn, {param: arg})] resolves to: its [error], or null. *)
Fixpoint run_statements (rpc : string → string → string → thrown + option thrown)
    (statements : list string) : Eff unit unit :=
  match statements with
  | [] => mret tt
  | statement :: rest =>
      (if negb (is_empty (trim statement)) then
         emit (Rpc "exec" "sql" statement);;
         stmtError ← await (rpc "exec" "sql" statement);
         match stmtError with
         | Some stmtError =>
             emit (ConsoleLogged [Text "⚠️  Note:"; Val (message_of stmtError)])
         | None => mret tt
         end
       else mret tt);;
      run_statements rpc rest
  end.

(** [readFile] is what reading the migration file gives, each time it is
    read. *)
Definition applyMigration (readFile : thrown + string)
    (rpc : string → string → string → thrown + option thrown) : Eff unit unit :=
  attempt
    (log "📖 Reading migration file...";;
     sql ← await readFile;
     log "🔄 Applying migration to add brand_style_context column...";;
     emit (Rpc "exec_sql" "sql_query" sql);;
     error ← await (rpc "exec_sql" "sql_query" sql);
     match error with
     | Some _ =>
         log "⚠️  exec_sql RPC not available, attempting direct query...";;
         run_statements rpc (statements sql)
     | None => mret tt
     end;;
     log "✅ Migration applied successfully!";;
     log "📝 The brand_style_context column has been added to the profiles table.";;
     log (nl +:+ "You can now use the BrandOnboardingModal component to:");;
     log "  1. Upload a brand logo";;
     log "  2. Analyze the brand with AI";;
     log "  3. Edit and save the brand style description")
    (λ err,
       emit (ConsoleErrored [Text "❌ Migration failed:"; Val (message_of err)]);;
       log (nl +:+ "📝 Manual migration instructions:");;
       log "1. Go to your Supabase dashboard";;
       log "2. Navigate to SQL Editor";;
       log "3. Run the following SQL:";;
       sql ← await readFile;
       log (nl +:+ sql);;
       emit (Exited 1)).

(** The script from the check of its two environment variables on.
    [createClient] is what the call of that name gives: an exception there
    ends the script. *)
Definition main (supabaseUrl supabaseServiceKey : option string)
    (createClient : thrown + unit) (readFile : thrown + string)
    (rpc : string → string → string → thrown + option thrown) : Eff unit unit :=
  if negb (truthy supabaseUrl) || negb (truthy supabaseServiceKey) then
    emit (ConsoleErrored [Text "❌ Missing Supabase credentials in .env.local"]);;
    emit (ConsoleErrored
            [Text "Required: NEXT_PUBLIC_SUPABASE_URL and SUPABASE_SERVICE_ROLE_KEY"]);;
    emit (Exited 1)
  else
    await createClient;;
    applyMigration readFile rpc.

(** The calls of [supabase.rpc] among the effects. *)
Definition rpcs (effects : list effect) : list effect :=
  List.filter (λ e, match e with Rpc _ _ _ => true | _ => false end) effects.

(** What the loop over the statements does: calls of [exec], and notes. *)
Definition statement_effect (e : effect) : bool :=
  match e with
  | Rpc _ _ _ => true
  | ConsoleLogged [Text _; Val _] => true
  | _ => false
  end.

Definition applied : effect := ConsoleLogged [Text "✅ Migration applied successfully!"].

(** The lines that end a run of [applyMigration]: those of the last
    statements of its [try] block, and those of its [catch] block. *)
Definition reported_success : list effect :=
  [ applied;
    ConsoleLogged
      [Text "📝 The brand_style_context column has been added to the profiles table."];
    ConsoleLogged [Text (nl +:+ "You can now use the BrandOnboardingModal component to:")];
    ConsoleLogged [Text "  1. Upload a brand logo"];
    ConsoleLogged [Text "  2. Analyze the brand with AI"];
    ConsoleLogged [Text "  3. Edit and save the brand style description"] ].

Definition reported_failure (err : thrown) (sql : string) : list effect :=
  [ ConsoleErrored [Text "❌ Migration failed:"; Val (message_of err)];
    ConsoleLogged [Text (nl +:+ "📝 Manual migration instructions:")];
    ConsoleLogged [Text "1. Go to your Supabase dashboard"];
    ConsoleLogged [Text "2. Navigate to SQL Editor"];
    ConsoleLogged [Text "3. Run the following SQL:"];
    ConsoleLogged [Text (nl +:+ sql)];
    Exited 1 ].

(** The text has the byte [c]. *)
Fixpoint has_byte (c : ascii) (s : string) : bool :=
  match s with
  | EmptyString => false
  | String c' r => Ascii.eqb c' c || has_byte c r
  end.

(** The file [docs/migration-add-brand-style-context.sql]. *)
Definition migration_add_brand_style_context_sql : string :=
  join nl
    [ "-- Add brand_style_context column to profiles table";
      "-- This column stores the AI-generated brand analysis and style description";
      "";
      "ALTER TABLE profiles";
      "ADD COLUMN IF NOT EXISTS brand_style_context TEXT;";
      "";
      "-- Add a comment to describe the column";
      "COMMENT ON COLUMN profiles.brand_style_context IS 'AI-generated brand analysis and style description based on logo and brand information';";
      "" ].

End Migration.

(** *** Example inputs of the pages and of the script *)

Definition sample_user : User :=
  {| user_id := "7f3c"; user_email := Some "asha@example.com" |}.

Definition sample_profile : json :=
  JObject [ ("id", JString "7f3c"); ("email", JString "asha@example.com");
            ("industry_type", JString "Education"); ("brand_logo_url", JNull) ].

(** A profile endpoint that answers every request with [profile]. *)
Definition profile_found (profile : json) (_ : string) : thrown + Response :=
  inr {| ok := true; body := inr profile |}.

(** A profile endpoint that answers 404. *)
Definition profile_missing (_ : string) : thrown + Response :=
  inr {| ok := false; body := inr (JObject [("error", JString "Profile not found")]) |}.

Definition sample_form : SignUp.state :=
  {| SignUp.email := "asha@example.com"; SignUp.password := "s3cret!";
     SignUp.loading := false; SignUp.error := Json JNull |}.

Definition short_form : SignUp.state :=
  {| SignUp.email := "asha@example.com"; SignUp.password := "12345";
     SignUp.loading := false; SignUp.error := Json JNull |}.

(** A sign-up that creates the user [id]. *)
Definition signUp_creates (id : string) (_ _ : string) : thrown + SignUp.SignUpResult :=
  inr {| SignUp.user := Some id; SignUp.signUpError := None |}.

(** A profile endpoint that saves what is posted. *)
Definition profile_saved (_ : string) (_ : list (string * value)) : thrown + Response :=
  inr {| ok := true; body := inr (JObject []) |}.

(** A profile endpoint that refuses what is posted, with [reason] as the
    [error] of its answer. *)
Definition profile_refused (reason : json) (_ : string) (_ : list (string * value))
  : thrown + Response :=
  inr {| ok := false; body := inr (JObject [("error", reason)]) |}.

(** A session of a user signed in with Google. *)
Definition sample_session_user : AuthCallback.SessionUser :=
  {| AuthCallback.id := Some "7f3c"; AuthCallback.email := Some "asha@example.com";
     AuthCallback.provider := Str "google" |}.

Definition sample_session : AuthCallback.SessionResult :=
  {| AuthCallback.session := Some (Some sample_session_user);
     AuthCallback.sessionError := None |}.

(** A profile table in which every user has the profile [sample_profile]. *)
Definition profile_exists (_ : string) : thrown + json := inr sample_profile.

(** A database without the functions [exec_sql] and [exec]. *)
Definition rpc_unavailable (_ _ _ : string) : thrown + option thrown :=
  inr (Some (new_Error "Could not find the function in the schema cache")).

(** An endpoint that answers the request of the creative director with
    [t], and rejects any other request. *)
Definition upstream_strict (t : string) (request : GenerateContentRequest)
  : exn + GenerateContentResult :=
  if String.eqb (systemInstruction request) CREATIVE_DIRECTOR_SYSTEM_PROMPT
  then inr (result_of_text (Some t))
  else inl (Rejection "400 Bad Request").

(** An answer whose [reasoning] is an object with a [toString] of its own. *)
Definition answer_with_own_toString : string :=
  "{" +:+ dq +:+ "reasoning" +:+ dq +:+ ": {" +:+ dq +:+ "toString" +:+ dq +:+ ": "
      +:+ dq +:+ "B2C" +:+ dq +:+ "}, "
      +:+ dq +:+ "image_prompt" +:+ dq +:+ ": " +:+ dq +:+ "A bonfire at dusk" +:+ dq +:+ "}".

(** ** The prompt engine, over its tables and its endpoint *)

Section PromptEngine.

(** The two tables imported from [./festival-data], a module that is not
    among the sources at hand. The source reads them with [table[key]]: they
    are plain objects, and their own properties map a label to a phrase. *)
Variables industryKeywords eventKeywords : gmap string string.

(** [model.generateContent]: the call to the generative-model endpoint,
    which either returns a result or throws. A call that never settles is
    outside this model. *)
Variable generateContent : GenerateContentRequest → exn + GenerateContentResult.

Definition generateStaticPrompt (event industry : string)
    (brandStyleContext : option string) : exn + string :=
  let indKeywords :=
    or_else (Get industryKeywords industry) (Get industryKeywords "Education") in
  let evtKeywords :=
    or_else (Get eventKeywords event) (Get eventKeywords "Republic Day") in
  ind ← ToString indKeywords;
  evt ← ToString evtKeywords;
  let prompt :=
    event +:+ " social media background, " +:+ industry +:+ " style. " +:+ nl +:+
    "  Visuals: " +:+ ind +:+ ", " +:+ evt +:+ ". " +:+ nl +:+
    "  High quality, photorealistic, 8k. NO TEXT." in
  let prompt :=
    if truthy brandStyleContext
    then prompt +:+ " Style: " +:+ nullable_ToString brandStyleContext
    else prompt in
  mret prompt.

(** The body of the [try] block. *)
Definition primary_path (event industry : string) (brandStyleContext : option string)
  : M string :=
  console_log ("🧠 Creative Director: Analyzing strategy for " +:+ event +:+ " in "
               +:+ industry +:+ "...");;
  brief ← lift (client_brief event industry brandStyleContext);
  result ← lift (generateContent (creative_director_request brief));
  response ← lift (first_candidate_text result);
  if negb (truthy response) then throw (Error "No response from Creative Director")
  else
    data ← lift (JSON_parse (nullable_ToString response));
    reasoning ← lift (GetV data "reasoning");
    reasoning ← lift (ToString reasoning);
    console_log ("✨ Strategy: " +:+ reasoning);;
    image_prompt ← lift (GetV data "image_prompt");
    image_prompt ← lift (ToString image_prompt);
    mret (image_prompt +:+ TECHNICAL_SPECS +:+ style_clause brandStyleContext).

Definition generateSmartPrompt (event industry : string)
    (brandStyleContext : option string) : M string :=
  try_catch
    (primary_path event industry brandStyleContext)
    (λ error,
       console_error "⚠️ Creative Director unavailable, falling back to keywords:" error;;
       lift (generateStaticPrompt event industry brandStyleContext)).

(** Steps 1 to 3 of the primary path: the text of the first candidate. *)
Definition candidate_text (event industry : string) (brandStyleContext : option string)
  : exn + option string :=
  brief ← client_brief event industry brandStyleContext;
  result ← generateContent (creative_director_request brief);
  first_candidate_text result.

(** The failures of steps 2 to 4, in the words of the specification: the
    upstream call throws, the first candidate's text is absent, or the text
    does not parse. *)
Inductive primary_failure (event industry : string) (brandStyleContext : option string)
  : Prop :=
  | upstream_call_throws brief error :
      client_brief event industry brandStyleContext = inr brief →
      generateContent (creative_director_request brief) = inl error →
      primary_failure event industry brandStyleContext
  | candidate_text_absent brief result :
      client_brief event industry brandStyleContext = inr brief →
      generateContent (creative_director_request brief) = inr result →
      first_candidate_text result = inr None →
      primary_failure event industry brandStyleContext
  | candidate_text_unparseable brief result text error :
      client_brief event industry brandStyleContext = inr brief →
      generateContent (creative_director_request brief) = inr result →
      first_candidate_text result = inr (Some text) →
      JSON_parse text = inl error →
      primary_failure event industry brandStyleContext.

(** ** The parser

    Each parser leaves a text shorter than the one it was given, so the
    fuel [JSON_parse] starts with, one more than the length of the text, is
    never used up. *)

Lemma skip_ws_length (s : string) : (String.length (skip_ws s) ≤ String.length s)%nat.
Proof. induction s as [|c s IH]; cbn; [lia|]. destruct (is_ws c); cbn; lia. Qed.

Lemma next_char_length (s : string) (c : ascii) (r : string) :
  next_char s = Some (c, r) → (String.length r < String.length s)%nat.
Proof.
  unfold next_char. pose proof (skip_ws_length s) as H.
  destruct (skip_ws s); [done|]. intros [= <- <-]. cbn in H. lia.
Qed.

Lemma string_body_length (s : string) :
  ∀ ps rest, string_body s = Some (ps, rest) → (String.length rest < String.length s)%nat.
Proof.
  remember (String.length s) as n eqn:Hn. revert s Hn.
  induction n as [n IH] using lt_wf_ind. intros s -> ps rest.
  destruct s as [|c r]; [done|]. cbn [string_body].
  repeat case_match; intros; simplify_eq; cbn [String.length]; try lia;
    match goal with
    | H : string_body ?t = Some _ |- _ =>
        eapply (IH (String.length t)) in H; [|cbn [String.length]; lia|reflexivity];
        cbn [String.length] in *; lia
    end.
Qed.

Lemma string_literal_length (s str rest : string) :
  string_literal s = Some (str, rest) → (String.length rest < String.length s)%nat.
Proof.
  unfold string_literal. destruct (string_body s) as [[ps r]|] eqn:H; [|done].
  intros [= <- <-]. by eapply string_body_length.
Qed.

Lemma digits_length (s : string) :
  ∀ acc count v n r, digits s acc count = (v, n, r) →
    (String.length r ≤ String.length s)%nat ∧
    ((count < n)%Z → (String.length r < String.length s)%nat) ∧ (count ≤ n)%Z.
Proof.
  induction s as [|c s IH]; intros acc count v n r; cbn [digits].
  - intros [= <- <- <-]. cbn. lia.
  - destruct (digit_value c).
    + intros H%IH. cbn [String.length]. lia.
    + intros [= <- <- <-]. cbn [String.length]. lia.
Qed.

Lemma number_literal_length (s : string) (x : number) (rest : string) :
  number_literal s = Some (x, rest) → (String.length rest < String.length s)%nat.
Proof.
  unfold number_literal.
  repeat (case_match; simplify_eq; try done); intros; simplify_eq;
    repeat match goal with
    | H : digits (String ?a _) _ _ = _, D : digit_value ?a = Some _ |- _ =>
        cbn [digits] in H; rewrite D in H
    | H : digits _ _ _ = _ |- _ => apply digits_length in H
    | H : (_ =? _)%Z = false |- _ => apply Z.eqb_neq in H
    end; cbn [String.length] in *; lia.
Qed.

Lemma substring_length (n m : nat) (s : string) :
  (String.length (substring n m s) ≤ String.length s - n)%nat.
Proof.
  revert n m. induction s as [|c s IH]; intros [|n] [|m]; cbn; try lia.
  - specialize (IH 0%nat m). lia.
  - apply IH.
  - apply IH.
Qed.

Lemma keyword_length (word : string) (v x : json) (s rest : string) :
  keyword word v s = Some (x, rest) →
  (String.length rest ≤ String.length s - String.length word)%nat.
Proof.
  unfold keyword. case_match; [|done]. intros [= <- <-]. apply substring_length.
Qed.

(** What a parser returns is followed by a text shorter than its input. *)
Lemma parser_consumes (fuel : nat) :
  ∀ s,
    (∀ v r, parse_value fuel s = Some (v, r) → (String.length r < String.length s)%nat) ∧
    (∀ vs r, parse_elements fuel s = Some (vs, r) → (String.length r < String.length s)%nat) ∧
    (∀ k v r, parse_member fuel s = Some (k, v, r) → (String.length r < String.length s)%nat) ∧
    (∀ kvs r, parse_members fuel s = Some (kvs, r) → (String.length r < String.length s)%nat).
Proof.
  induction fuel as [|fuel IH]; intros s; [done|].
  cbn [parse_value parse_elements parse_member parse_members].
  destruct (next_char s) as [[c r]|] eqn:Hs; [|done].
  apply next_char_length in Hs.
  repeat split; intros;
    repeat (case_match; simplify_eq; try done);
    repeat match goal with
    | H : next_char _ = Some _ |- _ => apply next_char_length in H
    | H : string_literal _ = Some _ |- _ => apply string_literal_length in H
    | H : number_literal _ = Some _ |- _ => apply number_literal_length in H
    | H : keyword _ _ _ = Some _ |- _ => apply keyword_length in H
    | H : parse_value fuel ?t = Some _ |- _ => apply (proj1 (IH t)) in H
    | H : parse_elements fuel ?t = Some _ |- _ => apply (proj1 (proj2 (IH t))) in H
    | H : parse_member fuel _ = Some (?p, _) |- _ => is_var p; destruct p
    | H : parse_member fuel ?t = Some _ |- _ =>
        apply (proj1 (proj2 (proj2 (IH t)))) in H
    | H : parse_members fuel ?t = Some _ |- _ =>
        apply (proj2 (proj2 (proj2 (IH t)))) in H
    end; cbn [String.length] in *; lia.
Qed.

(** Fuel above the length of the text is enough: more changes nothing. *)
Lemma parser_fuel (fuel : nat) :
  ∀ fuel' s,
    (String.length s < fuel)%nat → (String.length s < fuel')%nat →
    parse_value fuel s = parse_value fuel' s ∧
    parse_elements fuel s = parse_elements fuel' s ∧
    parse_member fuel s = parse_member fuel' s ∧
    parse_members fuel s = parse_members fuel' s.
Proof.
  induction fuel as [|fuel IH]; intros [|fuel'] s Hfuel Hfuel'; try lia.
  cbn [parse_value parse_elements parse_member parse_members].
  destruct (next_char s) as [[c r]|] eqn:Hs; [|done].
  apply next_char_length in Hs.
  assert (Hr : ∀ t, (String.length t < String.length s)%nat →
            parse_value fuel t = parse_value fuel' t ∧
            parse_elements fuel t = parse_elements fuel' t ∧
            parse_member fuel t = parse_member fuel' t ∧
            parse_members fuel t = parse_members fuel' t)
    by (intros t Ht; apply IH; lia).
  clear IH.
  repeat split;
    repeat first
      [ match goal with
        | |- context [parse_value fuel ?t] => rewrite (proj1 (Hr t ltac:(lia)))
        | |- context [parse_elements fuel ?t] =>
            rewrite (proj1 (proj2 (Hr t ltac:(lia))))
        | |- context [parse_member fuel ?t] =>
            rewrite (proj1 (proj2 (proj2 (Hr t ltac:(lia)))))
        | |- context [parse_members fuel ?t] =>
            rewrite (proj2 (proj2 (proj2 (Hr t ltac:(lia)))))
        end
      | reflexivity
      | case_match;
        repeat match goal with
        | H : next_char _ = Some _ |- _ => apply next_char_length in H
        | H : string_literal _ = Some _ |- _ => apply string_literal_length in H
        | H : parse_value _ ?t = Some _ |- _ =>
            apply (proj1 (parser_consumes _ t)) in H
        | H : parse_elements _ ?t = Some _ |- _ =>
            apply (proj1 (proj2 (parser_consumes _ t))) in H
        | H : parse_member _ _ = Some (?p, _) |- _ => is_var p; destruct p
        | H : parse_member _ ?t = Some _ |- _ =>
            apply (proj1 (proj2 (proj2 (parser_consumes _ t)))) in H
        | H : parse_members _ ?t = Some _ |- _ =>
            apply (proj2 (proj2 (proj2 (parser_consumes _ t)))) in H
        end ].
Qed.

(** [JSON.parse] does not depend on the fuel it gives its parser. *)
Lemma JSON_parse_fuel (fuel : nat) (text : string) :
  (String.length text < fuel)%nat →
  JSON_parse text =
    match parse_value fuel text with
    | Some (v, rest) => if is_empty (skip_ws rest) then inr v else inl SyntaxError
    | None => inl SyntaxError
    end.
Proof.
  intros Hfuel. unfold JSON_parse.
  by rewrite (proj1 (parser_fuel (S (String.length text)) fuel text ltac:(lia) Hfuel)).
Qed.

(** ** Strings *)

Lemma app_cons (c : ascii) (a b : string) : String c a +:+ b = String c (a +:+ b).
Proof. reflexivity. Qed.

Lemma app_nil (b : string) : "" +:+ b = b.
Proof. reflexivity. Qed.

Lemma string_app_empty_r (a : string) : a +:+ "" = a.
Proof. induction a as [|c a IH]; [done|]. by rewrite app_cons, IH. Qed.

Lemma string_app_assoc (a b c : string) : (a +:+ b) +:+ c = a +:+ b +:+ c.
Proof. induction a as [|x a IH]; [done|]. by rewrite !app_cons, IH. Qed.

Lemma prefix_nil (s : string) : String.prefix "" s = true.
Proof. by destruct s. Qed.

Lemma prefix_cons (c c' : ascii) (n s : string) :
  String.prefix (String c n) (String c' s) = bool_decide (c = c') && String.prefix n s.
Proof. cbn. destruct (ascii_dec c c'); by case_bool_decide. Qed.

Lemma prefix_app_l (n a b : string) :
  String.prefix n a = true → String.prefix n (a +:+ b) = true.
Proof.
  revert a. induction n as [|c n IH]; intros a H; [apply prefix_nil|].
  destruct a as [|c' a]; [done|].
  rewrite app_cons, prefix_cons. rewrite prefix_cons in H.
  apply andb_true_iff in H as [-> H]. by rewrite (IH _ H).
Qed.

Lemma includes_app_l (n a b : string) :
  includes n a = true → includes n (a +:+ b) = true.
Proof.
  induction a as [|c a IH]; intros H.
  - destruct n; [|done]. rewrite app_nil. destruct b; done.
  - rewrite app_cons. cbn [includes] in *.
    apply orb_true_iff in H as [H|H].
    + apply (prefix_app_l _ _ b) in H. rewrite app_cons in H. by rewrite H.
    + rewrite (IH H). apply orb_true_r.
Qed.

Lemma includes_app_r (n a b : string) :
  includes n b = true → includes n (a +:+ b) = true.
Proof.
  intros H. induction a as [|c a IH]; [exact H|].
  rewrite app_cons. cbn [includes]. rewrite IH. apply orb_true_r.
Qed.

Lemma is_empty_app_r (a b : string) : is_empty b = false → is_empty (a +:+ b) = false.
Proof. by destruct a, b. Qed.

Lemma is_empty_app_l (a b : string) : is_empty a = false → is_empty (a +:+ b) = false.
Proof. by destruct a. Qed.

(** ** Conversions that cannot throw *)

Lemma ToString_table_value (table : gmap string string) (key : string) :
  ∃ s, ToString (Get table key) = inr s.
Proof.
  unfold Get, Object_prototype_Get.
  destruct (table !! key); [by eexists|].
  repeat case_match; by eexists.
Qed.

Lemma ToString_default (table : gmap string string) (key fallback : string) :
  ∃ s, ToString (or_else (Get table key) (Get table fallback)) = inr s.
Proof. unfold or_else. case_match; apply ToString_table_value. Qed.

Lemma ToString_getEventContext (event : string) :
  ∃ s, ToString (getEventContext event) = inr s.
Proof.
  unfold getEventContext, or_else.
  case_match; [apply ToString_table_value|by eexists].
Qed.

Lemma client_brief_returns (event industry : string) (brandStyleContext : option string) :
  ∃ brief, client_brief event industry brandStyleContext = inr brief.
Proof.
  unfold client_brief.
  destruct (ToString_getEventContext event) as [s ->]. by eexists.
Qed.

(** The fallback never throws: it returns the template filled with the
    text of the two looked-up values, followed by the style clause when the
    context is truthy. *)
Lemma generateStaticPrompt_returns (event industry : string)
    (brandStyleContext : option string) :
  ∃ ind evt,
    ToString (or_else (Get industryKeywords industry)
                      (Get industryKeywords "Education")) = inr ind ∧
    ToString (or_else (Get eventKeywords event)
                      (Get eventKeywords "Republic Day")) = inr evt ∧
    generateStaticPrompt event industry brandStyleContext =
      inr (static_template event industry ind evt +:+
           (if truthy brandStyleContext
            then " Style: " +:+ nullable_ToString brandStyleContext else "")).
Proof.
  destruct (ToString_default industryKeywords industry "Education") as [ind Hind].
  destruct (ToString_default eventKeywords event "Republic Day") as [evt Hevt].
  exists ind, evt. split; [done|]. split; [done|].
  unfold generateStaticPrompt. rewrite Hind, Hevt. cbn.
  unfold static_template.
  destruct (truthy brandStyleContext); [done|].
  by rewrite string_app_empty_r.
Qed.

Lemma static_template_not_empty (event industry ind evt rest : string) :
  is_empty (static_template event industry ind evt +:+ rest) = false.
Proof.
  unfold static_template. apply is_empty_app_l.
  do 1 apply is_empty_app_r. done.
Qed.

Lemma static_template_NO_TEXT (event industry ind evt rest : string) :
  includes "NO TEXT." (static_template event industry ind evt +:+ rest) = true.
Proof.
  apply includes_app_l. unfold static_template.
  do 10 apply includes_app_r. done.
Qed.

(** ** The run of [generateSmartPrompt] *)

(** Whatever the [try] block does, the call returns: the prompt of the
    primary path, or else the fallback prompt. *)
Lemma generateSmartPrompt_cases (event industry : string)
    (brandStyleContext : option string) (out : list console_entry) :
  match (primary_path event industry brandStyleContext out).1 with
  | inr prompt =>
      (generateSmartPrompt event industry brandStyleContext out).1 = inr prompt
  | inl _ =>
      (generateSmartPrompt event industry brandStyleContext out).1 =
      generateStaticPrompt event industry brandStyleContext
  end.
Proof.
  unfold generateSmartPrompt, try_catch.
  destruct (primary_path _ _ _ out) as [[e|prompt] out']; done.
Qed.

Ltac run_steps :=
  unfold mbind, M_bind, exn_bind, lift, console_log, console_error, throw, mret, M_ret,
    exn_ret;
  cbv beta iota zeta.

(** When the [try] block returns, it returns the text of the parsed
    value's [image_prompt] followed by the technical block and the style
    clause. *)
Lemma primary_path_inr (event industry : string) (brandStyleContext : option string)
    (out out' : list console_entry) (prompt : string) :
  primary_path event industry brandStyleContext out = (inr prompt, out') →
  ∃ text data field image_prompt,
    candidate_text event industry brandStyleContext = inr (Some text) ∧
    is_empty text = false ∧
    JSON_parse text = inr data ∧
    GetV data "image_prompt" = inr field ∧
    ToString field = inr image_prompt ∧
    prompt = image_prompt +:+ TECHNICAL_SPECS +:+ style_clause brandStyleContext.
Proof.
  unfold primary_path, candidate_text. run_steps.
  destruct (client_brief event industry brandStyleContext) as [e|brief];
    [by intros [=]|].
  destruct (generateContent (creative_director_request brief)) as [e|result];
    [by intros [=]|].
  destruct (first_candidate_text result) as [e|[text|]];
    [by intros [=]| |by intros [=]].
  cbn [truthy nullable_ToString negb].
  destruct (is_empty text) eqn:Htext; [by intros [=]|]. cbv beta iota zeta.
  destruct (JSON_parse text) as [e|data] eqn:Hdata; [by intros [=]|].
  destruct (GetV data "reasoning") as [e|reasoning]; [by intros [=]|].
  destruct (ToString reasoning) as [e|reasoning']; [by intros [=]|].
  destruct (GetV data "image_prompt") as [e|field] eqn:Hfield; [by intros [=]|].
  destruct (ToString field) as [e|image_prompt] eqn:Himage; [by intros [=]|].
  intros [= <- <-]. by exists text, data, field, image_prompt.
Qed.


(** A failure of steps 2 to 4 makes the [try] block throw. *)
Lemma primary_failure_throws (event industry : string) (brandStyleContext : option string)
    (out : list console_entry) :
  primary_failure event industry brandStyleContext →
  ∃ error, (primary_path event industry brandStyleContext out).1 = inl error.
Proof.
  unfold primary_path. run_steps.
  intros [brief error -> ->|brief result -> -> ->|brief result text error -> -> -> Hparse].
  - by eexists.
  - by eexists.
  - cbn [truthy nullable_ToString negb]. destruct (is_empty text); [by eexists|].
    cbv beta iota zeta. rewrite Hparse. by eexists.
Qed.

(** ** The claims *)

(** C1. For every event, industry and brand-style context (null included),
    every pair of keyword tables, every behaviour of the endpoint and every
    state of the console, [generateSmartPrompt] does not throw: it returns a
    prompt, and the prompt is not the empty string, whether the [try] block
    returned or the fallback ran. *)
Theorem generateSmartPrompt_total (event industry : string)
    (brandStyleContext : option string) (out : list console_entry) :
  ∃ prompt out',
    generateSmartPrompt event industry brandStyleContext out = (inr prompt, out') ∧
    is_empty prompt = false.
Proof.
  unfold generateSmartPrompt, try_catch.
  destruct (primary_path event industry brandStyleContext out) as [[e|prompt] out'] eqn:Hrun.
  - destruct (generateStaticPrompt_returns event industry brandStyleContext)
      as (ind & evt & _ & _ & Hstatic).
    run_steps. rewrite Hstatic. eexists _, _. split; [done|].
    apply static_template_not_empty.
  - apply primary_path_inr in Hrun as (text & data & field & image_prompt & _ & _ & _ & _ & _ & ->).
    eexists _, _. split; [done|].
    apply is_empty_app_r, is_empty_app_l. done.
Qed.


(** C3. Whenever the primary path fails in steps 2 to 4 (the upstream call
    throws, the first candidate's text is absent, or the text does not
    parse), [generateSmartPrompt] returns, without throwing, exactly the
    string that [generateStaticPrompt] returns for the same inputs. *)
Theorem fallback_on_primary_failure (event industry : string)
    (brandStyleContext : option string) (out : list console_entry) :
  primary_failure event industry brandStyleContext →
  ∃ prompt,
    generateStaticPrompt event industry brandStyleContext = inr prompt ∧
    (generateSmartPrompt event industry brandStyleContext out).1 = inr prompt.
Proof.
  intros Hfail.
  destruct (primary_failure_throws _ _ _ out Hfail) as [error Hthrow].
  destruct (generateStaticPrompt_returns event industry brandStyleContext)
    as (ind & evt & _ & _ & Hstatic).
  pose proof (generateSmartPrompt_cases event industry brandStyleContext out) as Hrun.
  rewrite Hthrow in Hrun. rewrite Hrun, Hstatic. by eexists.
Qed.

(** C4, amended. [generateStaticPrompt] returns the fixed template as the
    source lays it out, with a space, a line break and two spaces between
    its sentences, built from the event, the industry and the two looked-up
    keyword phrases, followed by the Style clause when the context is a
    non-empty string. *)
Theorem generateStaticPrompt_template (event industry : string)
    (brandStyleContext : option string) (ind evt : string) :
  or_else (Get industryKeywords industry) (Get industryKeywords "Education") = Str ind →
  or_else (Get eventKeywords event) (Get eventKeywords "Republic Day") = Str evt →
  generateStaticPrompt event industry brandStyleContext =
    inr (event +:+ " social media background, " +:+ industry +:+ " style. " +:+ nl +:+
         "  Visuals: " +:+ ind +:+ ", " +:+ evt +:+ ". " +:+ nl +:+
         "  High quality, photorealistic, 8k. NO TEXT." +:+
         match brandStyleContext with
         | Some context => if is_empty context then "" else " Style: " +:+ context
         | None => ""
         end).
Proof.
  intros Hind Hevt.
  destruct (generateStaticPrompt_returns event industry brandStyleContext)
    as (ind' & evt' & Hind' & Hevt' & ->).
  rewrite Hind in Hind'. rewrite Hevt in Hevt'.
  injection Hind' as <-. injection Hevt' as <-.
  unfold static_template. rewrite !string_app_assoc.
  by destruct brandStyleContext as [[|c context]|].
Qed.

(** A key that is neither in the table nor a property of
    [Object.prototype] reads as the entry of the default key. *)
Lemma unknown_key_defaults (table : gmap string string) (key fallback : string) :
  table !! key = None →
  Object_prototype_Get key = Undefined →
  or_else (Get table key) (Get table fallback) = Get table fallback.
Proof. intros Hkey Hproto. unfold or_else, Get at 1 2. by rewrite Hkey, Hproto. Qed.

(** An unknown industry and an unknown event, neither of them the name of a
    property of [Object.prototype], get the phrases of [Education] and
    [Republic Day]. *)
Lemma generateStaticPrompt_defaults (event industry : string)
    (brandStyleContext : option string) (education republic : string) :
  industryKeywords !! industry = None → Object_prototype_Get industry = Undefined →
  eventKeywords !! event = None → Object_prototype_Get event = Undefined →
  industryKeywords !! "Education" = Some education →
  eventKeywords !! "Republic Day" = Some republic →
  generateStaticPrompt event industry brandStyleContext =
    inr (static_template event industry education republic +:+
         (if truthy brandStyleContext
          then " Style: " +:+ nullable_ToString brandStyleContext else "")).
Proof.
  intros Hi Hip He Hep Hedu Hrep.
  destruct (generateStaticPrompt_returns event industry brandStyleContext)
    as (ind & evt & Hind & Hevt & ->).
  rewrite unknown_key_defaults in Hind by done.
  rewrite unknown_key_defaults in Hevt by done.
  unfold Get in Hind, Hevt. rewrite Hedu in Hind. rewrite Hrep in Hevt.
  injection Hind as <-. by injection Hevt as <-.
Qed.

(** An event outside the context table, and not the name of a property of
    [Object.prototype], has the context [Celebration]. *)
Lemma getEventContext_default (event : string) :
  event ≠ "Lohri" → event ≠ "Makar Sankranti" → event ≠ "Republic Day" →
  Object_prototype_Get event = Undefined →
  getEventContext event = Str "Celebration".
Proof.
  intros H1 H2 H3 Hproto. unfold getEventContext, or_else, Get. cbn [list_to_map foldr].
  rewrite !lookup_insert_ne, lookup_empty by done. by rewrite Hproto.
Qed.

(** C5, at the failing inputs. [constructor] and [toString] name
    properties that every plain object inherits from [Object.prototype].
    With tables that have no entry for them, and in the event-context table,
    they read as the inherited functions, which are truthy: the brief gives
    the text of the [Object] function as context, not [Celebration], and the
    fallback prompt carries the text of two functions, not the phrases of
    [Education] and [Republic Day]. Nothing is thrown. *)
Theorem inherited_keys_are_not_defaulted :
  industryKeywords !! "toString" = None →
  eventKeywords !! "constructor" = None →
  getEventContext "constructor" = NativeFunction "Object" ∧
  (∃ brief,
     client_brief "constructor" "toString" None = inr brief ∧
     includes "- Event: constructor (Context: function Object() { [native code] })"
       brief = true ∧
     includes "Celebration" brief = false) ∧
  generateStaticPrompt "constructor" "toString" None =
    inr (static_template "constructor" "toString"
           "function toString() { [native code] }"
           "function Object() { [native code] }").
Proof.
  intros Hindustry Hevent. split; [by vm_compute|]. split.
  - eexists. repeat split; vm_compute; reflexivity.
  - unfold generateStaticPrompt, Get. rewrite Hindustry, Hevent.
    by vm_compute.
Qed.

(** C6, amended. Whenever the text of the first candidate is not empty,
    parses to a value other than null, and the [reasoning] and the
    [image_prompt] of that value convert to strings, the [try] block returns
    and [generateSmartPrompt] returns the text of [image_prompt] (the field
    itself when it is a string), then the fixed technical block with its
    quality, negative and lighting lines, then a style clause: the
    brand-style context when it is a non-empty string, else
    [Modern, clean, corporate]. The console gets the first line and the
    strategy, and no error. *)
Theorem success_path_prompt (event industry : string)
    (brandStyleContext : option string) (out : list console_entry)
    (text : string) (data : json) (r field : value) (reasoning image_prompt : string) :
  candidate_text event industry brandStyleContext = inr (Some text) →
  is_empty text = false →
  JSON_parse text = inr data →
  GetV data "reasoning" = inr r →
  ToString r = inr reasoning →
  GetV data "image_prompt" = inr field →
  ToString field = inr image_prompt →
  generateSmartPrompt event industry brandStyleContext out =
    (inr (image_prompt +:+ TECHNICAL_SPECS +:+
          match brandStyleContext with
          | Some context => if is_empty context then "Modern, clean, corporate" else context
          | None => "Modern, clean, corporate"
          end),
     out ++
     [ ConsoleLog ("🧠 Creative Director: Analyzing strategy for " +:+ event +:+ " in "
                   +:+ industry +:+ "...");
       ConsoleLog ("✨ Strategy: " +:+ reasoning) ]) ∧
  primary_path event industry brandStyleContext out =
    generateSmartPrompt event industry brandStyleContext out ∧
  data ≠ JNull ∧
  (∀ s, field = Str s → image_prompt = s) ∧
  includes "High quality, 8k, photorealistic" TECHNICAL_SPECS = true ∧
  includes "NO text, NO watermarks, NO borders, NO frames" TECHNICAL_SPECS = true ∧
  includes "cinematic lighting, wide angle" TECHNICAL_SPECS = true.
Proof.
  intros Htext Hnonempty Hdata Hr Hreasoning Hfield Himage.
  assert (Hrun : primary_path event industry brandStyleContext out =
            (inr (image_prompt +:+ TECHNICAL_SPECS +:+
                  match brandStyleContext with
                  | Some context =>
                      if is_empty context then "Modern, clean, corporate" else context
                  | None => "Modern, clean, corporate"
                  end),
             out ++
             [ ConsoleLog ("🧠 Creative Director: Analyzing strategy for " +:+ event
                           +:+ " in " +:+ industry +:+ "...");
               ConsoleLog ("✨ Strategy: " +:+ reasoning) ])).
  { revert Htext. unfold primary_path, candidate_text. run_steps.
    destruct (client_brief event industry brandStyleContext) as [e|brief];
      [by intros [=]|].
    destruct (generateContent (creative_director_request brief)) as [e|result];
      [by intros [=]|].
    intros ->. cbn [truthy nullable_ToString negb]. rewrite Hnonempty. cbn [negb].
    rewrite Hdata, Hr, Hreasoning, Hfield, Himage. rewrite <- app_assoc.
    by destruct brandStyleContext as [[|c context]|]. }
  assert (Hsame : generateSmartPrompt event industry brandStyleContext out =
            primary_path event industry brandStyleContext out)
    by (unfold generateSmartPrompt, try_catch; by rewrite Hrun).
  split; [by rewrite Hsame|]. split; [done|]. split; [by intros ->|].
  split; [|done]. intros s ->. by injection Himage.
Qed.

(** C7, amended. When the brand-style context is null, absent or the empty
    string, the fallback output is the bare template and nothing follows
    its [NO TEXT.]; when the context is a non-empty string, the output is
    that same template followed by [ Style: ] and the context verbatim. *)
Theorem fallback_style_clause (event industry : string) :
  ∃ ind evt,
    generateStaticPrompt event industry None =
      inr (static_template event industry ind evt) ∧
    generateStaticPrompt event industry (Some "") =
      inr (static_template event industry ind evt) ∧
    ∀ context,
      is_empty context = false →
      generateStaticPrompt event industry (Some context) =
        inr (static_template event industry ind evt +:+ " Style: " +:+ context).
Proof.
  destruct (generateStaticPrompt_returns event industry None)
    as (ind & evt & Hind & Hevt & Hnone).
  exists ind, evt. cbn [truthy] in Hnone. rewrite string_app_empty_r in Hnone.
  split; [done|]. split; [done|].
  intros context Hcontext.
  destruct (generateStaticPrompt_returns event industry (Some context))
    as (ind' & evt' & Hind' & Hevt' & ->).
  rewrite Hind in Hind'. rewrite Hevt in Hevt'.
  injection Hind' as <-. injection Hevt' as <-.
  cbn [truthy nullable_ToString]. by rewrite Hcontext.
Qed.


(** C10. Every string [generateSmartPrompt] returns carries a no-text
    constraint: when the [try] block returned, the prompt contains
    [NO text, NO watermarks, NO borders, NO frames]; when the fallback ran,
    it contains [NO TEXT.]. *)
Theorem prompt_forbids_text (event industry : string)
    (brandStyleContext : option string) (out : list console_entry) :
  ∃ prompt out',
    generateSmartPrompt event industry brandStyleContext out = (inr prompt, out') ∧
    match (primary_path event industry brandStyleContext out).1 with
    | inr _ => includes "NO text, NO watermarks, NO borders, NO frames" prompt = true
    | inl _ => includes "NO TEXT." prompt = true
    end.
Proof.
  unfold generateSmartPrompt, try_catch.
  destruct (primary_path event industry brandStyleContext out) as [[e|prompt] out'] eqn:Hrun.
  - destruct (generateStaticPrompt_returns event industry brandStyleContext)
      as (ind & evt & _ & _ & Hstatic).
    run_steps. rewrite Hstatic. eexists _, _. split; [done|].
    apply static_template_NO_TEXT.
  - apply primary_path_inr in Hrun
      as (text & data & field & image_prompt & _ & _ & _ & _ & _ & ->).
    eexists _, _. split; [done|].
    cbn [fst]. apply includes_app_r, includes_app_l. done.
Qed.

(** ** Further properties of the prompt composer *)

Ltac trace_leaf :=
  cbn [fst snd]; rewrite <- ?app_assoc; eexists; split; [reflexivity|];
  first [ by eexists
        | exists []; split; [reflexivity|by left]
        | eexists [_]; split; [reflexivity|right; by eexists] ].

(** X1. The console tells which path a call took. Every call first logs
    the line [Creative Director: Analyzing strategy for <event> in
    <industry>...]. When the [try] block returns, exactly one more line
    follows, the [Strategy] line. When it throws, the last line is the
    [console.error] that carries the thrown value, preceded by at most one
    [Strategy] line (the block can still throw after logging the
    strategy, on [image_prompt]). Nothing else is written. *)
Theorem console_tells_the_path (event industry : string)
    (brandStyleContext : option string) (out : list console_entry) :
  ∃ entries,
    (generateSmartPrompt event industry brandStyleContext out).2 =
      out ++
      ConsoleLog ("🧠 Creative Director: Analyzing strategy for " +:+ event +:+ " in "
                  +:+ industry +:+ "...") :: entries ∧
    match (primary_path event industry brandStyleContext out).1 with
    | inr _ => ∃ reasoning, entries = [ConsoleLog ("✨ Strategy: " +:+ reasoning)]
    | inl error =>
        ∃ strategy,
          entries = strategy ++
            [ConsoleError "⚠️ Creative Director unavailable, falling back to keywords:"
               error] ∧
          (strategy = [] ∨
           ∃ reasoning, strategy = [ConsoleLog ("✨ Strategy: " +:+ reasoning)])
    end.
Proof.
  unfold generateSmartPrompt, try_catch, primary_path. run_steps.
  destruct (client_brief event industry brandStyleContext) as [e|brief]; [trace_leaf|].
  destruct (generateContent (creative_director_request brief)) as [e|result];
    [trace_leaf|].
  destruct (first_candidate_text result) as [e|response]; [trace_leaf|].
  destruct (truthy response); cbn [negb]; cbv beta iota zeta; [|trace_leaf].
  destruct (JSON_parse (nullable_ToString response)) as [e|data]; [trace_leaf|].
  destruct (GetV data "reasoning") as [e|reasoning]; [trace_leaf|].
  destruct (ToString reasoning) as [e|reasoning']; [trace_leaf|].
  destruct (GetV data "image_prompt") as [e|field]; [trace_leaf|].
  destruct (ToString field) as [e|image_prompt]; trace_leaf.
Qed.

Lemma prefix_refl (s : string) : String.prefix s s = true.
Proof. induction s as [|a s IH]; [done|]. rewrite prefix_cons, IH. by case_bool_decide. Qed.

Lemma includes_found (pre needle post full : string) :
  full = pre +:+ needle +:+ post → includes needle full = true.
Proof.
  intros ->. apply includes_app_r, includes_app_l.
  destruct needle as [|c n]; [done|]. cbn [includes]. by rewrite prefix_refl.
Qed.

(** X2. The brief sent to the model is always built, and it carries the
    caller's event and industry verbatim on their [- Event:] and
    [- Industry:] lines, and on its [- Brand Style Guide:] line the
    brand-style context when that is a non-empty string, else the sentence
    [No specific guide. Aim for high-end, clean, professional.]. *)
Theorem brief_names_event_and_industry (event industry : string)
    (brandStyleContext : option string) :
  ∃ brief,
    client_brief event industry brandStyleContext = inr brief ∧
    includes ("- Event: " +:+ event +:+ " (Context: ") brief = true ∧
    includes ("- Industry: " +:+ industry +:+ nl) brief = true ∧
    includes ("- Brand Style Guide: " +:+
              match brandStyleContext with
              | Some context =>
                  if is_empty context
                  then "No specific guide. Aim for high-end, clean, professional."
                  else context
              | None => "No specific guide. Aim for high-end, clean, professional."
              end +:+ nl) brief = true.
Proof.
  unfold client_brief.
  destruct (ToString_getEventContext event) as [context ->].
  eexists. split; [reflexivity|].
  set (guide := if truthy brandStyleContext then _ else _).
  assert (Hguide : guide =
            match brandStyleContext with
            | Some context =>
                if is_empty context
                then "No specific guide. Aim for high-end, clean, professional."
                else context
            | None => "No specific guide. Aim for high-end, clean, professional."
            end) by (by destruct brandStyleContext as [[|]|]).
  rewrite <- Hguide. clearbody guide. clear Hguide.
  repeat split.
  - eapply (includes_found (nl +:+ "    CLIENT BRIEF:" +:+ nl +:+ "    ")).
    rewrite !string_app_assoc. reflexivity.
  - eapply (includes_found
              (nl +:+ "    CLIENT BRIEF:" +:+ nl +:+ "    - Event: " +:+ event +:+
               " (Context: " +:+ context +:+ ")" +:+ nl +:+ "    ")).
    rewrite !string_app_assoc. reflexivity.
  - eapply (includes_found
              (nl +:+ "    CLIENT BRIEF:" +:+ nl +:+ "    - Event: " +:+ event +:+
               " (Context: " +:+ context +:+ ")" +:+ nl +:+ "    - Industry: " +:+
               industry +:+ nl +:+ "    ")).
    rewrite !string_app_assoc. reflexivity.
Qed.

(** X3. The context that [getEventContext] puts into the brief is never
    the empty string, whatever the event: an entry of its table, the text of
    an inherited property of the table object, or [Celebration]. *)
Theorem event_context_is_never_empty (event : string) :
  ∃ context, ToString (getEventContext event) = inr context ∧ is_empty context = false.
Proof.
  unfold getEventContext. set (map := list_to_map _). unfold or_else, Get.
  destruct (map !! event) as [s|]; cbn [ToBoolean Str].
  - destruct (is_empty s) eqn:Hs; cbn [negb].
    + by exists "Celebration".
    + by exists s.
  - unfold Object_prototype_Get.
    repeat case_match; cbn [ToBoolean]; (eexists; split; [reflexivity|reflexivity]).
Qed.

Lemma or_else_own (table : gmap string string) (key fallback phrase : string) :
  table !! key = Some phrase → is_empty phrase = false →
  or_else (Get table key) (Get table fallback) = Str phrase.
Proof. intros Hkey Hphrase. unfold or_else, Get at 1 2. rewrite Hkey. cbn. by rewrite Hphrase. Qed.

Lemma or_else_empty (table : gmap string string) (key fallback : string) :
  table !! key = Some "" →
  or_else (Get table key) (Get table fallback) = Get table fallback.
Proof. intros Hkey. unfold or_else, Get at 1. by rewrite Hkey. Qed.

(** X4. When both tables have a non-empty phrase of their own for the
    industry and for the event, [generateStaticPrompt] uses exactly these
    two phrases: the rows of [Education] and [Republic Day] play no part. *)
Theorem known_keys_use_their_phrases (event industry : string)
    (brandStyleContext : option string) (ind evt : string) :
  industryKeywords !! industry = Some ind → is_empty ind = false →
  eventKeywords !! event = Some evt → is_empty evt = false →
  generateStaticPrompt event industry brandStyleContext =
    inr (static_template event industry ind evt +:+
         (if truthy brandStyleContext
          then " Style: " +:+ nullable_ToString brandStyleContext else "")).
Proof.
  intros Hi Hind He Hevt.
  destruct (generateStaticPrompt_returns event industry brandStyleContext)
    as (ind' & evt' & Hind' & Hevt' & ->).
  rewrite (or_else_own _ _ _ ind) in Hind' by done.
  rewrite (or_else_own _ _ _ evt) in Hevt' by done.
  injection Hind' as <-. by injection Hevt' as <-.
Qed.

(** X5. A row whose phrase is the empty string counts as missing: the
    lookup is guarded by [||], so the prompt gets the phrases of
    [Education] and [Republic Day] in its place. *)
Theorem empty_phrase_is_a_missing_key (event industry : string)
    (brandStyleContext : option string) (education republic : string) :
  industryKeywords !! industry = Some "" →
  eventKeywords !! event = Some "" →
  industryKeywords !! "Education" = Some education →
  eventKeywords !! "Republic Day" = Some republic →
  generateStaticPrompt event industry brandStyleContext =
    inr (static_template event industry education republic +:+
         (if truthy brandStyleContext
          then " Style: " +:+ nullable_ToString brandStyleContext else "")).
Proof.
  intros Hi He Hedu Hrep.
  destruct (generateStaticPrompt_returns event industry brandStyleContext)
    as (ind' & evt' & Hind' & Hevt' & ->).
  rewrite or_else_empty in Hind' by done.
  rewrite or_else_empty in Hevt' by done.
  unfold Get in Hind', Hevt'. rewrite Hedu in Hind'. rewrite Hrep in Hevt'.
  injection Hind' as <-. by injection Hevt' as <-.
Qed.

(** X6. The defaults are themselves looked up: with tables that lack the
    rows [Education] and [Republic Day], an unknown industry and event put
    the word [undefined] into the prompt twice, and nothing is thrown. *)
Theorem missing_default_rows_print_undefined (event industry : string)
    (brandStyleContext : option string) :
  industryKeywords !! industry = None → Object_prototype_Get industry = Undefined →
  eventKeywords !! event = None → Object_prototype_Get event = Undefined →
  industryKeywords !! "Education" = None →
  eventKeywords !! "Republic Day" = None →
  generateStaticPrompt event industry brandStyleContext =
    inr (static_template event industry "undefined" "undefined" +:+
         (if truthy brandStyleContext
          then " Style: " +:+ nullable_ToString brandStyleContext else "")).
Proof.
  intros Hi Hip He Hep Hedu Hrep.
  destruct (generateStaticPrompt_returns event industry brandStyleContext)
    as (ind' & evt' & Hind' & Hevt' & ->).
  rewrite unknown_key_defaults in Hind' by done.
  rewrite unknown_key_defaults in Hevt' by done.
  unfold Get in Hind', Hevt'. rewrite Hedu in Hind'. rewrite Hrep in Hevt'.
  cbn in Hind', Hevt'.
  injection Hind' as <-. by injection Hevt' as <-.
Qed.

(** X7. The strategy is logged before the prompt is built, so an answer
    whose [reasoning] cannot be converted to a string is lost as a whole:
    the call returns the fallback output, whatever [image_prompt] holds, and
    the console has the first line and the error only. *)
Theorem unprintable_reasoning_discards_the_answer (event industry : string)
    (brandStyleContext : option string) (out : list console_entry)
    (text : string) (data : json) (reasoning : value) (error : exn) :
  candidate_text event industry brandStyleContext = inr (Some text) →
  JSON_parse text = inr data →
  GetV data "reasoning" = inr reasoning →
  ToString reasoning = inl error →
  generateSmartPrompt event industry brandStyleContext out =
    (generateStaticPrompt event industry brandStyleContext,
     out ++
     [ ConsoleLog ("🧠 Creative Director: Analyzing strategy for " +:+ event +:+ " in "
                   +:+ industry +:+ "...");
       ConsoleError "⚠️ Creative Director unavailable, falling back to keywords:"
         error ]).
Proof.
  unfold candidate_text, generateSmartPrompt, try_catch, primary_path. run_steps.
  destruct (client_brief event industry brandStyleContext) as [e|brief];
    [by intros [=]|].
  destruct (generateContent (creative_director_request brief)) as [e|result];
    [by intros [=]|].
  intros -> Hparse Hreasoning Hshow.
  assert (is_empty text = false) as Hnonempty by (by destruct text).
  cbn [truthy nullable_ToString negb]. rewrite Hnonempty. cbn [negb].
  rewrite Hparse, Hreasoning, Hshow. by rewrite <- app_assoc.
Qed.

(** X8. A candidate text that is valid JSON but no object: [null] makes
    the [try] block throw on its first property read, and the call returns
    the fallback output; a boolean, a number, a string or an array has no
    [image_prompt], and the call returns a prompt that starts with
    [undefined]. *)
Theorem answer_that_is_not_an_object (event industry : string)
    (brandStyleContext : option string) (out : list console_entry)
    (text : string) (data : json) :
  candidate_text event industry brandStyleContext = inr (Some text) →
  JSON_parse text = inr data →
  match data with
  | JObject _ => True
  | JNull =>
      (generateSmartPrompt event industry brandStyleContext out).1 =
        generateStaticPrompt event industry brandStyleContext
  | _ =>
      (generateSmartPrompt event industry brandStyleContext out).1 =
        inr ("undefined" +:+ TECHNICAL_SPECS +:+ style_clause brandStyleContext)
  end.
Proof.
  unfold candidate_text, generateSmartPrompt, try_catch, primary_path. run_steps.
  destruct (client_brief event industry brandStyleContext) as [e|brief];
    [by intros [=]|].
  destruct (generateContent (creative_director_request brief)) as [e|result];
    [by intros [=]|].
  intros -> Hparse.
  assert (is_empty text = false) as Hnonempty by (by destruct text).
  cbn [truthy nullable_ToString negb]. rewrite Hnonempty. cbn [negb].
  rewrite Hparse. by destruct data.
Qed.

End PromptEngine.

(** ** The functions run on the sample tables *)



(** C3, witness: a failing call, an answer without text and an answer that
    does not parse all give the fallback output. *)
Lemma fallback_on_primary_failure_witness :
  (∃ prompt,
     generateStaticPrompt sample_industryKeywords sample_eventKeywords
       "Lohri" "Education" (Some "warm, earthy") = inr prompt ∧
     (generateSmartPrompt sample_industryKeywords sample_eventKeywords
        upstream_down "Lohri" "Education" (Some "warm, earthy") []).1 = inr prompt) ∧
  (∃ prompt,
     generateStaticPrompt sample_industryKeywords sample_eventKeywords
       "Lohri" "Education" (Some "warm, earthy") = inr prompt ∧
     (generateSmartPrompt sample_industryKeywords sample_eventKeywords
        upstream_no_text "Lohri" "Education" (Some "warm, earthy") []).1 = inr prompt) ∧
  (∃ prompt,
     generateStaticPrompt sample_industryKeywords sample_eventKeywords
       "Lohri" "Education" (Some "warm, earthy") = inr prompt ∧
     (generateSmartPrompt sample_industryKeywords sample_eventKeywords
        (upstream_text "not json") "Lohri" "Education" (Some "warm, earthy") []).1 =
       inr prompt).
Proof.
  repeat split.
  - apply fallback_on_primary_failure.
    eapply upstream_call_throws.
    + vm_compute; reflexivity.
    + vm_compute; reflexivity.
  - apply fallback_on_primary_failure.
    eapply candidate_text_absent.
    + vm_compute; reflexivity.
    + vm_compute; reflexivity.
    + vm_compute; reflexivity.
  - apply fallback_on_primary_failure.
    eapply candidate_text_unparseable.
    + vm_compute; reflexivity.
    + vm_compute; reflexivity.
    + vm_compute; reflexivity.
    + vm_compute; reflexivity.
Defined.

(** C4, witness: a known event and industry with a brand style. *)
Lemma generateStaticPrompt_template_witness :
  generateStaticPrompt sample_industryKeywords sample_eventKeywords
    "Lohri" "Real Estate" (Some "warm, earthy") =
    inr ("Lohri social media background, Real Estate style. " +:+ nl +:+
         "  Visuals: modern architecture, keys, skyline, bonfire, dhol, winter night. "
         +:+ nl +:+
         "  High quality, photorealistic, 8k. NO TEXT. Style: warm, earthy").
Proof.
  apply (generateStaticPrompt_template sample_industryKeywords sample_eventKeywords
           "Lohri" "Real Estate" (Some "warm, earthy")
           "modern architecture, keys, skyline" "bonfire, dhol, winter night");
    vm_compute; reflexivity.
Defined.

(** C4, counterexample: the returned string is not the single-line
    template of the specification; its sentences are separated by line
    breaks and indentation. *)
Lemma template_has_line_breaks :
  generateStaticPrompt sample_industryKeywords sample_eventKeywords
    "Lohri" "Education" None =
    inr ("Lohri social media background, Education style. " +:+ nl +:+
         "  Visuals: books, classroom, graduation caps, bonfire, dhol, winter night. "
         +:+ nl +:+
         "  High quality, photorealistic, 8k. NO TEXT.") ∧
  generateStaticPrompt sample_industryKeywords sample_eventKeywords
    "Lohri" "Education" None ≠
    inr (spec_static_template "Lohri" "Education"
           "books, classroom, graduation caps" "bonfire, dhol, winter night").
Proof.
  split; [vm_compute; reflexivity|]. vm_compute. discriminate.
Qed.

(** C5, witness: the sample tables have no entry for [toString] or
    [constructor]. *)
Lemma inherited_keys_are_not_defaulted_witness :
  getEventContext "constructor" = NativeFunction "Object" ∧
  (∃ brief,
     client_brief "constructor" "toString" None = inr brief ∧
     includes "- Event: constructor (Context: function Object() { [native code] })"
       brief = true ∧
     includes "Celebration" brief = false) ∧
  generateStaticPrompt sample_industryKeywords sample_eventKeywords
    "constructor" "toString" None =
    inr ("constructor social media background, toString style. " +:+ nl +:+
         "  Visuals: function toString() { [native code] }, " +:+
         "function Object() { [native code] }. " +:+ nl +:+
         "  High quality, photorealistic, 8k. NO TEXT.").
Proof.
  apply (inherited_keys_are_not_defaulted sample_industryKeywords sample_eventKeywords);
    (vm_compute; reflexivity).
Defined.

(** C6, witness: a well-formed answer and a brand style. *)
Lemma success_path_prompt_witness :
  generateSmartPrompt sample_industryKeywords sample_eventKeywords
    (upstream_text sample_answer) "Lohri" "Education" (Some "warm, earthy") [] =
    (inr ("A bonfire at dusk" +:+ TECHNICAL_SPECS +:+ "warm, earthy"),
     [] ++
     [ ConsoleLog ("🧠 Creative Director: Analyzing strategy for " +:+ "Lohri" +:+ " in "
                   +:+ "Education" +:+ "...");
       ConsoleLog ("✨ Strategy: " +:+ "B2C, warm") ]).
Proof.
  refine (proj1 (success_path_prompt sample_industryKeywords sample_eventKeywords
                   (upstream_text sample_answer) "Lohri" "Education"
                   (Some "warm, earthy") [] sample_answer
                   (JObject [ ("reasoning", JString "B2C, warm");
                              ("image_prompt", JString "A bonfire at dusk");
                              ("headline_suggestion", JString "Warm Lohri Wishes");
                              ("color_palette_hex", JArray [JString "#ff6600"]) ])
                   (Str "B2C, warm") (Str "A bonfire at dusk")
                   "B2C, warm" "A bonfire at dusk" _ _ _ _ _ _ _)).
  - vm_compute; reflexivity.
  - vm_compute; reflexivity.
  - vm_compute; reflexivity.
  - vm_compute; reflexivity.
  - vm_compute; reflexivity.
  - vm_compute; reflexivity.
  - vm_compute; reflexivity.
Defined.

(** C6, counterexample: with the empty string as context, which is
    present and not null, the style clause of the returned prompt is the
    default and not the context. *)
Lemma empty_context_gets_default_style :
  (generateSmartPrompt sample_industryKeywords sample_eventKeywords
     (upstream_text sample_answer) "Lohri" "Education" (Some "") []).1 =
    inr ("A bonfire at dusk" +:+ TECHNICAL_SPECS +:+ "Modern, clean, corporate") ∧
  (generateSmartPrompt sample_industryKeywords sample_eventKeywords
     (upstream_text sample_answer) "Lohri" "Education" (Some "") []).1 ≠
    inr ("A bonfire at dusk" +:+ TECHNICAL_SPECS +:+ spec_style_clause (Some "")).
Proof.
  split; [vm_compute; reflexivity|]. vm_compute. discriminate.
Qed.

(** C7, counterexample: with the empty string as context, which is
    present, the fallback output has no Style clause at all. *)
Lemma empty_context_has_no_style_clause :
  generateStaticPrompt sample_industryKeywords sample_eventKeywords
    "Lohri" "Education" (Some "") =
    inr (static_template "Lohri" "Education"
           "books, classroom, graduation caps" "bonfire, dhol, winter night") ∧
  includes "Style: "
    (static_template "Lohri" "Education"
       "books, classroom, graduation caps" "bonfire, dhol, winter night") = false.
Proof. split; vm_compute; reflexivity. Qed.

(** ** Further runs *)

(** The first scenario of the specification: Lohri, Education, no brand
    style, and a failing endpoint. *)
Example scenario_lohri_education :
  (generateSmartPrompt sample_industryKeywords sample_eventKeywords
     upstream_down "Lohri" "Education" None []).1 =
    inr ("Lohri social media background, Education style. " +:+ nl +:+
         "  Visuals: books, classroom, graduation caps, bonfire, dhol, winter night. "
         +:+ nl +:+
         "  High quality, photorealistic, 8k. NO TEXT.").
Proof. vm_compute. reflexivity. Qed.

(** The second scenario: an unknown event and industry with a brand style
    get the two default phrases and a trailing Style clause. *)
Example scenario_unknown_keys :
  (generateSmartPrompt sample_industryKeywords sample_eventKeywords
     upstream_down "Unknown Festival" "Unknown Biz"
     (Some "warm, earthy, handcrafted") []).1 =
    inr ("Unknown Festival social media background, Unknown Biz style. " +:+ nl +:+
         "  Visuals: books, classroom, graduation caps, " +:+
         "tricolor flag, India Gate, saffron white green. " +:+ nl +:+
         "  High quality, photorealistic, 8k. NO TEXT. Style: warm, earthy, handcrafted").
Proof. vm_compute. reflexivity. Qed.

(** The error is written to the console and not passed on. *)
Example failure_is_logged :
  (generateSmartPrompt sample_industryKeywords sample_eventKeywords
     upstream_down "Lohri" "Education" None []).2 =
    [ ConsoleLog "🧠 Creative Director: Analyzing strategy for Lohri in Education...";
      ConsoleError "⚠️ Creative Director unavailable, falling back to keywords:"
        (Rejection "503 Service Unavailable") ].
Proof. vm_compute. reflexivity. Qed.

(** The brief sent for a known event. *)
Example brief_of_lohri :
  client_brief "Lohri" "Education" None =
    inr (nl +:+
         "    CLIENT BRIEF:" +:+ nl +:+
         "    - Event: Lohri (Context: North Indian harvest festival, bonfires, winter night)"
         +:+ nl +:+
         "    - Industry: Education" +:+ nl +:+
         "    - Brand Style Guide: No specific guide. Aim for high-end, clean, professional."
         +:+ nl +:+
         "    " +:+ nl +:+
         "    TASK:" +:+ nl +:+
         "    Write a photorealistic image generation prompt for a social media post background. "
         +:+ nl +:+
         "    It must visually represent the *feeling* of the event mixed with the *aesthetics* of the industry."
         +:+ nl +:+
         "    ").
Proof. vm_compute. reflexivity. Qed.

(** [JSON.parse] on the sample answer. *)
Example JSON_parse_sample_answer :
  JSON_parse sample_answer =
    inr (JObject [ ("reasoning", JString "B2C, warm");
                   ("image_prompt", JString "A bonfire at dusk");
                   ("headline_suggestion", JString "Warm Lohri Wishes");
                   ("color_palette_hex", JArray [JString "#ff6600"]) ]) ∧
  parses_as_CreativeDirectorResponse sample_answer = true.
Proof. split; vm_compute; reflexivity. Qed.

(** Texts that are not JSON. *)
Example JSON_parse_rejects :
  JSON_parse "" = inl SyntaxError ∧
  JSON_parse "{a: 1}" = inl SyntaxError ∧
  JSON_parse "[1, 2,]" = inl SyntaxError ∧
  JSON_parse "01" = inl SyntaxError ∧
  JSON_parse "{} {}" = inl SyntaxError ∧
  JSON_parse "Sorry, I cannot help with that." = inl SyntaxError.
Proof. repeat split; vm_compute; reflexivity. Qed.

(** Template conversion of parsed values other than strings. *)
Example ToString_of_parsed_values :
  (JSON_parse "[1, 2.50, -0, 1e21, 0.000001, 1e-7, null, [true, false], {}]"
     ≫= λ data, ToString (Json data)) =
    inr "1,2.5,0,1e+21,0.000001,1e-7,,true,false,[object Object]" ∧
  (JSON_parse "null" ≫= λ data, ToString (Json data)) = inr "null" ∧
  (JSON_parse "null" ≫= λ data, GetV data "image_prompt") = inl TypeError ∧
  (JSON_parse "42" ≫= λ data, GetV data "image_prompt") = inr Undefined.
Proof. repeat split; vm_compute; reflexivity. Qed.

(** A parsed object that carries a [toString] of its own cannot be
    converted: the [try] block throws and the fallback runs. *)
Example own_toString_falls_back :
  (generateSmartPrompt sample_industryKeywords sample_eventKeywords
     (upstream_text
        ("{" +:+ dq +:+ "image_prompt" +:+ dq +:+ ": {" +:+ dq +:+ "toString" +:+ dq
         +:+ ": 1}}"))
     "Lohri" "Education" None []).1 =
  generateStaticPrompt sample_industryKeywords sample_eventKeywords
    "Lohri" "Education" None.
Proof. vm_compute. reflexivity. Qed.

(** ** The hook and the onboarding wrapper *)

Ltac run_page :=
  unfold mbind, mret, Eff_bind, Eff_ret, thrown_bind, thrown_ret, attempt, finally,
    emit, update, get, await, raise;
  cbv beta iota zeta; cbn [fst snd].

(** X10. [checkBrandReady] fails closed. It never throws and always ends
    with [loading] false, and it sets [isReady] to true in one case only:
    the profile request returned a response with [ok], the body of the
    response is JSON other than null, and its [industry_type] is truthy. A
    rejected request, a status outside 2xx, an unreadable body, a [null]
    body and a missing, null or empty [industry_type] all leave the user not
    ready. *)
Theorem checkBrandReady_fails_closed (fetch : string → thrown + Response) (user : User)
    (s : BrandReady.state) (trace : list effect) :
  ∃ ready trace',
    BrandReady.checkBrandReady fetch user (s, trace) =
      (inr tt, ({| BrandReady.isReady := ready; BrandReady.loading := false |}, trace')) ∧
    (ready = true ↔
     ∃ response profile industry_type,
       fetch ("/api/profiles/" +:+ user_id user) = inr response ∧
       ok response = true ∧
       body response = inr profile ∧
       GetV profile "industry_type" = inr industry_type ∧
       ToBoolean industry_type = true).
Proof.
  unfold BrandReady.checkBrandReady, BrandReady.setIsReady, BrandReady.setLoading, read.
  run_page.
  destruct (fetch _) as [e|response] eqn:Hfetch; cbn.
  { eexists _, _. split; [reflexivity|]. split; [done|]. by intros (? & ? & ? & [=] & _). }
  destruct (ok response) eqn:Hok; cbn.
  2:{ eexists _, _. split; [reflexivity|]. split; [done|].
      intros (? & ? & ? & [= <-] & ? & _). congruence. }
  destruct (body response) as [e|profile] eqn:Hbody; cbn.
  { eexists _, _. split; [reflexivity|]. split; [done|].
    intros (? & ? & ? & [= <-] & _ & ? & _). congruence. }
  destruct (GetV profile "industry_type") as [e|industry] eqn:Hread; cbn.
  { eexists _, _. split; [reflexivity|]. split; [done|].
    intros (? & ? & ? & [= <-] & _ & ? & ? & _). congruence. }
  eexists _, _. split; [reflexivity|]. split.
  - intros Hready. by exists response, profile, industry.
  - intros (? & ? & ? & [= <-] & _ & ? & ? & ?). congruence.
Qed.

Lemma checkUserProfile_cases (fetch : string → thrown + Response) (user : User)
    (s : Onboarding.state) (trace : list effect) :
  ∃ new,
    (Onboarding.checkUserProfile fetch user (s, trace)).1 = inr tt ∧
    (Onboarding.checkUserProfile fetch user (s, trace)).2.2 = trace ++ new ∧
    ((Onboarding.checkUserProfile fetch user (s, trace)).2.1 = s ∨
     ∃ response profile industry_type email,
       fetch ("/api/profiles/" +:+ user_id user) = inr response ∧
       ok response = true ∧
       body response = inr profile ∧
       GetV profile "industry_type" = inr industry_type ∧
       (Onboarding.checkUserProfile fetch user (s, trace)).2.1 =
         {| Onboarding.showModal := negb (ToBoolean industry_type);
            Onboarding.userEmail := email;
            Onboarding.isReady := ToBoolean industry_type |}).
Proof.
  unfold Onboarding.checkUserProfile, Onboarding.setShowModal, Onboarding.setIsReady,
    Onboarding.setUserEmail, read.
  run_page.
  destruct (fetch _) as [e|response] eqn:Hfetch; cbn.
  { eexists. split; [done|]. split; [by rewrite <- app_assoc|]. by left. }
  destruct (ok response) eqn:Hok; cbn.
  2:{ eexists. split; [done|]. split; [by rewrite <- app_assoc|]. by left. }
  destruct (body response) as [e|profile] eqn:Hbody; cbn.
  { eexists. split; [done|]. split; [by rewrite <- app_assoc|]. by left. }
  destruct (GetV profile "industry_type") as [e|industry_type] eqn:Hindustry; cbn.
  { eexists. split; [done|]. split; [by rewrite <- app_assoc|]. by left. }
  destruct (GetV profile "brand_logo_url") as [e|brand_logo_url]; cbn.
  { eexists. split; [done|]. split; [by rewrite <- app_assoc|]. by left. }
  destruct (GetV profile "email") as [e|email]; cbn.
  { eexists. split; [done|]. split; [by rewrite <- !app_assoc|]. by left. }
  destruct (ToBoolean industry_type) eqn:Hready; cbn.
  all: eexists; split; [done|]; split; [by rewrite <- !app_assoc|]; right.
  all: eexists response, profile, industry_type, _.
  all: rewrite Hready; by repeat split.
Qed.

Lemma onboarding_step_invariant (e : Onboarding.event) (s : Onboarding.state)
    (trace : list effect) :
  Onboarding.showModal s && Onboarding.isReady s = false →
  Onboarding.showModal (Onboarding.step e (s, trace)).2.1 &&
  Onboarding.isReady (Onboarding.step e (s, trace)).2.1 = false.
Proof.
  intros Hinv. destruct e as [fetch authLoading user|]; [|done].
  unfold Onboarding.step, Onboarding.effect_body.
  destruct authLoading, user as [user|]; try done.
  destruct (checkUserProfile_cases fetch user s trace)
    as (new & _ & _ & [->|(response & profile & industry & email & _ & _ & _ & _ & ->)]);
    [done|].
  cbn. by destruct (ToBoolean industry).
Qed.

(** X13. The wrapper never holds the modal open for a user it counts as
    ready. From the initial state, after any sequence of effect runs
    (whatever the auth state and whatever the profile requests give) and of
    completed onboardings, each handler run to its end, [showModal] and
    [isReady] are not both set; so a modal rendered open means [isReady] is
    false. *)
Theorem modal_and_ready_exclude_each_other (events : list Onboarding.event)
    (authLoading : bool) (user : option User) :
  let s := (Onboarding.run events (Onboarding.initial, [])).1 in
  Onboarding.showModal s && Onboarding.isReady s = false ∧
  (Onboarding.render authLoading user s = Some true → Onboarding.isReady s = false).
Proof.
  cbn zeta.
  assert (Hrun : ∀ events w,
            Onboarding.showModal w.1 && Onboarding.isReady w.1 = false →
            Onboarding.showModal (Onboarding.run events w).1 &&
            Onboarding.isReady (Onboarding.run events w).1 = false).
  { clear events. induction events as [|e events IH]; intros [s trace] Hinv; [done|].
    cbn [Onboarding.run]. apply IH.
    by apply (onboarding_step_invariant e s trace). }
  specialize (Hrun events (Onboarding.initial, []) eq_refl).
  split; [done|].
  destruct (Onboarding.run events _) as [s trace]. cbn in *.
  unfold Onboarding.render. destruct user, authLoading; try done.
  intros [= Hopen]. rewrite Hopen in Hrun. done.
Qed.

(** X14. Given the same profile response, the hook and the wrapper
    agree: when the request returns [ok] with a body other than null, both
    set [isReady] to the truthiness of [industry_type], the hook stops
    loading, and the wrapper opens the modal exactly when the hook says not
    ready. The [brand_logo_url] that the wrapper logs plays no part, whatever
    the header comment of the component says. *)
Theorem hook_and_wrapper_agree (fetch : string → thrown + Response) (user : User)
    (response : Response) (profile : json) (industry_type : value)
    (h : BrandReady.state) (w : Onboarding.state) (trace trace' : list effect) :
  fetch ("/api/profiles/" +:+ user_id user) = inr response →
  ok response = true →
  body response = inr profile →
  GetV profile "industry_type" = inr industry_type →
  let hook := (BrandReady.checkBrandReady fetch user (h, trace)).2.1 in
  let wrapper := (Onboarding.checkUserProfile fetch user (w, trace')).2.1 in
  BrandReady.isReady hook = ToBoolean industry_type ∧
  BrandReady.loading hook = false ∧
  Onboarding.isReady wrapper = BrandReady.isReady hook ∧
  Onboarding.showModal wrapper = negb (BrandReady.isReady hook).
Proof.
  intros Hfetch Hok Hbody Hindustry. cbn zeta.
  unfold Onboarding.checkUserProfile, Onboarding.setShowModal, Onboarding.setIsReady,
    Onboarding.setUserEmail, BrandReady.checkBrandReady, BrandReady.setIsReady,
    BrandReady.setLoading, read.
  run_page. rewrite Hfetch. cbn. rewrite Hok. cbn. rewrite Hbody. cbn.
  rewrite Hindustry. cbn.
  assert (∃ v, GetV profile "brand_logo_url" = inr v) as [logo ->]
    by (destruct profile; try done; by eexists).
  assert (∃ v, GetV profile "email" = inr v) as [email ->]
    by (destruct profile; try done; by eexists).
  cbn. by destruct (ToBoolean industry_type).
Qed.

(** X15. When the profile cannot be had (the request throws, the status
    is outside 2xx, the body is no JSON or is [null]), the hook reports
    not ready and not loading, while the wrapper returns without touching
    its state: [showModal] and [isReady] stay as they were, so from the
    initial state no modal is shown. *)
Theorem unavailable_profile_is_a_dead_end (fetch : string → thrown + Response)
    (user : User) (h : BrandReady.state) (w : Onboarding.state)
    (trace trace' : list effect) :
  profile_unavailable fetch user →
  (BrandReady.checkBrandReady fetch user (h, trace)).2.1 =
    {| BrandReady.isReady := false; BrandReady.loading := false |} ∧
  (Onboarding.checkUserProfile fetch user (w, trace')).2.1 = w ∧
  (Onboarding.checkUserProfile fetch user (w, trace')).1 = inr tt.
Proof.
  unfold Onboarding.checkUserProfile, Onboarding.setShowModal, Onboarding.setIsReady,
    Onboarding.setUserEmail, BrandReady.checkBrandReady, BrandReady.setIsReady,
    BrandReady.setLoading, read.
  run_page.
  intros [error ->|response -> ->|response error -> Hok Hbody|response -> Hok Hbody];
    cbn; try done; by rewrite Hok, Hbody.
Qed.

(** X16. Completing the onboarding closes the modal, sets the wrapper's
    [isReady] and dispatches [userProfileReady] on the window, whatever the
    state was; a hook that is listening then sets its
    own [isReady] without another request, and a hook that is not (auth
    still loading, or no user) stays as it is. *)
Theorem completed_onboarding_reaches_the_hook (w : Onboarding.state)
    (trace : list effect) :
  ∃ new,
    Onboarding.handleOnboardingComplete (w, trace) =
      (inr tt,
       ({| Onboarding.showModal := false; Onboarding.userEmail := Onboarding.userEmail w;
           Onboarding.isReady := true |},
        trace ++ new)) ∧
    ∀ (h : BrandReady.state) (seen : list effect),
      BrandReady.deliver true new (h, seen) =
        (inr tt,
         ({| BrandReady.isReady := true; BrandReady.loading := BrandReady.loading h |},
          seen)) ∧
      BrandReady.deliver false new (h, seen) = (inr tt, (h, seen)).
Proof.
  unfold Onboarding.handleOnboardingComplete, Onboarding.setShowModal,
    Onboarding.setIsReady.
  run_page. eexists. split; [by rewrite <- app_assoc|]. done.
Qed.

(** X11. The effect of the hook never throws. It makes a request only
    when auth has loaded and there is a user, and then exactly one, a GET of
    [/api/profiles/<id of that user>]; it listens for [userProfileReady] in
    that case only. The only other thing it may do is one [console.error],
    after the request. *)
Theorem hook_requests_only_its_own_profile (fetch : string → thrown + Response)
    (authLoading : bool) (user : option User) (s : BrandReady.state)
    (trace : list effect) :
  ∃ listening s' new,
    BrandReady.effect_body fetch authLoading user (s, trace) =
      (inr listening, (s', trace ++ new)) ∧
    match authLoading, user with
    | false, Some user =>
        listening = true ∧
        (new = [Fetched ("/api/profiles/" +:+ user_id user) None] ∨
         ∃ error,
           new = [ Fetched ("/api/profiles/" +:+ user_id user) None;
                   ConsoleErrored
                     [Text "❌ Error checking brand ready status:"; Caught error] ])
    | _, _ => listening = false ∧ new = []
    end.
Proof.
  unfold BrandReady.effect_body, BrandReady.checkBrandReady, BrandReady.setIsReady,
    BrandReady.setLoading, read.
  run_page.
  destruct authLoading; [eexists _, _, []; by rewrite app_nil_r|].
  destruct user as [user|]; [|eexists _, _, []; by rewrite app_nil_r].
  cbn.
  destruct (fetch _) as [e|response]; cbn.
  { eexists _, _, _. split; [by rewrite <- app_assoc|]. split; [done|]. right. by eexists. }
  destruct (ok response); cbn.
  2:{ eexists _, _, _. split; [done|]. split; [done|]. by left. }
  destruct (body response) as [e|profile]; cbn.
  { eexists _, _, _. split; [by rewrite <- app_assoc|]. split; [done|]. right. by eexists. }
  destruct (GetV profile "industry_type") as [e|industry]; cbn.
  { eexists _, _, _. split; [by rewrite <- app_assoc|]. split; [done|]. right. by eexists. }
  eexists _, _, _. split; [done|]. split; [done|]. by left.
Qed.

(** X12. What [checkBrandReady] leaves does not depend on the state it
    finds: every path through it sets both [isReady] and [loading]. Since
    all its state updates come after the request is answered, a
    [userProfileReady] event handled before the answer is overwritten by
    the answer. *)
Theorem event_before_the_answer_is_overwritten (fetch : string → thrown + Response)
    (user : User) (s s' : BrandReady.state) (trace trace' : list effect) :
  (BrandReady.checkBrandReady fetch user (s, trace)).2.1 =
  (BrandReady.checkBrandReady fetch user (s', trace')).2.1 ∧
  (BrandReady.checkBrandReady fetch user
     (BrandReady.handleProfileReady (s, trace)).2).2.1 =
  (BrandReady.checkBrandReady fetch user (s, trace)).2.1.
Proof.
  unfold BrandReady.checkBrandReady, BrandReady.handleProfileReady, BrandReady.setIsReady,
    BrandReady.setLoading, read.
  run_page.
  destruct (fetch _) as [e|response]; cbn; [done|].
  destruct (ok response); cbn; [|done].
  destruct (body response) as [e|profile]; cbn; [done|].
  by destruct (GetV profile "industry_type") as [e|industry]; cbn.
Qed.

(** ** The sign-up modal *)

Lemma or_else_truthy (a b : value) : ToBoolean b = true → ToBoolean (or_else a b) = true.
Proof. unfold or_else. by destruct (ToBoolean a) eqn:H. Qed.

Lemma short_password_empty (p : string) : (6 ≤ SignUp.length p)%nat → is_empty p = false.
Proof. destruct p; cbn; [lia|done]. Qed.

Ltac elem_of_list H :=
  repeat (apply elem_of_cons in H as [H|H]; [try done; simplify_eq|]);
  try (by apply elem_of_nil in H).

Ltac sign_up_failed :=
  eexists _, _; split; [by rewrite <- ?app_assoc|];
  right; split; [first [by apply or_else_truthy|done]|];
  eexists; split; reflexivity.

(** X17. A form that fails the checks of [handleEmailSignUp] (no email,
    no password, or a password of fewer than six UTF-16 code units) goes
    nowhere: apart from [e.preventDefault()] nothing is called, neither the
    sign-up nor the profile endpoint nor [onSuccess]; [loading] is left as
    it was, and [error] becomes one of the two messages. *)
Theorem invalid_form_calls_nothing
    (signUp : string → string → thrown + SignUp.SignUpResult)
    (fetch : string → list (string * value) → thrown + Response)
    (onSuccess : thrown + unit) (s : SignUp.state) (trace : list effect) :
  is_empty (SignUp.email s) || is_empty (SignUp.password s)
    || (SignUp.length (SignUp.password s) <? 6)%nat = true →
  ∃ message,
    SignUp.handleEmailSignUp signUp fetch onSuccess (s, trace) =
      (inr tt,
       ({| SignUp.email := SignUp.email s; SignUp.password := SignUp.password s;
           SignUp.loading := SignUp.loading s; SignUp.error := Str message |},
        trace ++ [Called "e.preventDefault"])) ∧
    (message = "Please enter email and password" ∨
     message = "Password must be at least 6 characters").
Proof.
  intros Hinvalid. unfold SignUp.handleEmailSignUp, SignUp.setError. run_page.
  destruct (is_empty (SignUp.email s) || is_empty (SignUp.password s)) eqn:Hempty.
  - eexists. split; [reflexivity|by left].
  - rewrite orb_false_l in Hinvalid. rewrite Hinvalid. eexists. split; [reflexivity|by right].
Qed.

(** X18. A form that passes the checks always ends with [loading] false,
    the handler itself never throws, and there is exactly one verdict. Either
    [error] is null, [onSuccess] was the last thing called and returned, the
    sign-up gave a user without error and the profile endpoint answered
    [ok]; or [error] is truthy, it is the [message] of what was thrown (or
    [Sign up failed. Please try again.] when that is falsy), and the last
    console line is the [Sign up error] with the thrown value. *)
Theorem submitted_form_gets_one_verdict
    (signUp : string → string → thrown + SignUp.SignUpResult)
    (fetch : string → list (string * value) → thrown + Response)
    (onSuccess : thrown + unit) (s : SignUp.state) (trace : list effect) :
  is_empty (SignUp.email s) = false →
  (6 ≤ SignUp.length (SignUp.password s))%nat →
  ∃ verdict new,
    SignUp.handleEmailSignUp signUp fetch onSuccess (s, trace) =
      (inr tt,
       ({| SignUp.email := SignUp.email s; SignUp.password := SignUp.password s;
           SignUp.loading := false; SignUp.error := verdict |},
        trace ++ new)) ∧
    ((verdict = Json JNull ∧ onSuccess = inr tt ∧
      last new = Some (Called "onSuccess") ∧
      ∃ result id response,
        signUp (SignUp.email s) (SignUp.password s) = inr result ∧
        SignUp.signUpError result = None ∧ SignUp.user result = Some id ∧
        fetch "/api/profiles"
          [ ("id", Str id); ("email", Str (SignUp.email s));
            ("subscription_plan", Str "free");
            ("free_images_generated", SignUp.zero) ] = inr response ∧
        ok response = true)
     ∨
     (ToBoolean verdict = true ∧
      ∃ err, last new = Some (ConsoleErrored [Text "❌ Sign up error:"; Caught err]) ∧
             verdict = or_else (message_of err) (Str "Sign up failed. Please try again."))).
Proof.
  intros Hemail Hlength.
  pose proof (short_password_empty _ Hlength) as Hpassword.
  unfold SignUp.handleEmailSignUp, SignUp.setError, SignUp.setLoading, read, to_string.
  run_page. rewrite Hemail, Hpassword.
  destruct (Nat.ltb_spec (SignUp.length (SignUp.password s)) 6) as [?|_]; [lia|]. cbn.
  destruct (signUp _ _) as [e|result] eqn:HsignUp; cbn.
  { sign_up_failed. }
  destruct (SignUp.signUpError result) as [e|] eqn:Herror; cbn.
  { sign_up_failed. }
  destruct (SignUp.user result) as [id|] eqn:Huser; cbn.
  2:{ sign_up_failed. }
  destruct (fetch _ _) as [e|response] eqn:Hfetch; cbn.
  { sign_up_failed. }
  destruct (ok response) eqn:Hok; cbn.
  - destruct onSuccess as [e|[]]; cbn.
    { sign_up_failed. }
    eexists _, _. split; [by rewrite <- !app_assoc|].
    left. split; [done|]. split; [done|]. split; [done|].
    by exists result, id, response.
  - destruct (body response) as [e|profileError]; cbn.
    { sign_up_failed. }
    destruct (GetV profileError "error") as [e|reason]; cbn.
    { sign_up_failed. }
    destruct (ToString _) as [e|message]; cbn.
    all: sign_up_failed.
Qed.

(** X19. The only [fetch] of [handleEmailSignUp] is the POST to
    [/api/profiles], and it is made only for a form that passed the checks
    and after the sign-up returned a user without error. The posted object
    has that user's id, the email of the form, the plan [free] and zero
    generated images. *)
Theorem profile_is_posted_for_a_created_user_only
    (signUp : string → string → thrown + SignUp.SignUpResult)
    (fetch : string → list (string * value) → thrown + Response)
    (onSuccess : thrown + unit) (s : SignUp.state) (trace : list effect) :
  ∃ new,
    (SignUp.handleEmailSignUp signUp fetch onSuccess (s, trace)).2.2 = trace ++ new ∧
    ∀ url post,
      Fetched url post ∈ new →
      ∃ result id,
        signUp (SignUp.email s) (SignUp.password s) = inr result ∧
        SignUp.signUpError result = None ∧ SignUp.user result = Some id ∧
        url = "/api/profiles" ∧
        post = Some [ ("id", Str id); ("email", Str (SignUp.email s));
                      ("subscription_plan", Str "free");
                      ("free_images_generated", SignUp.zero) ] ∧
        is_empty (SignUp.email s) = false ∧
        (6 ≤ SignUp.length (SignUp.password s))%nat.
Proof.
  unfold SignUp.handleEmailSignUp, SignUp.setError, SignUp.setLoading, read, to_string.
  run_page.
  destruct (is_empty (SignUp.email s)) eqn:Hemail.
  { cbn. eexists. split; [reflexivity|]. intros url post Hin. elem_of_list Hin. }
  rewrite orb_false_l.
  destruct (is_empty (SignUp.password s)) eqn:Hpassword.
  { cbn. eexists. split; [reflexivity|]. intros url post Hin. elem_of_list Hin. }
  destruct (Nat.ltb_spec (SignUp.length (SignUp.password s)) 6) as [?|Hlength].
  { cbn. eexists. split; [reflexivity|]. intros url post Hin. elem_of_list Hin. }
  cbn.
  destruct (signUp _ _) as [e|result] eqn:HsignUp; cbn.
  { eexists. split; [by rewrite <- ?app_assoc|]. intros url post Hin. elem_of_list Hin. }
  destruct (SignUp.signUpError result) as [e|] eqn:Herror; cbn.
  { eexists. split; [by rewrite <- ?app_assoc|]. intros url post Hin. elem_of_list Hin. }
  destruct (SignUp.user result) as [id|] eqn:Huser; cbn.
  2:{ eexists. split; [by rewrite <- ?app_assoc|]. intros url post Hin. elem_of_list Hin. }
  destruct (fetch _ _) as [e|response]; cbn.
  { eexists. split; [by rewrite <- ?app_assoc|].
    intros url post Hin. elem_of_list Hin. by exists result, id. }
  destruct (ok response); cbn.
  - destruct onSuccess as [e|[]]; cbn.
    all: eexists; split; [by rewrite <- ?app_assoc|].
    all: intros url post Hin; elem_of_list Hin; by exists result, id.
  - destruct (body response) as [e|profileError]; cbn.
    { eexists. split; [by rewrite <- ?app_assoc|].
      intros url post Hin. elem_of_list Hin. by exists result, id. }
    destruct (GetV profileError "error") as [e|reason]; cbn.
    { eexists. split; [by rewrite <- ?app_assoc|].
      intros url post Hin. elem_of_list Hin. by exists result, id. }
    destruct (ToString _) as [e|message]; cbn.
    all: eexists; split; [by rewrite <- ?app_assoc|].
    all: intros url post Hin; elem_of_list Hin; by exists result, id.
Qed.

(** X20. When the profile endpoint refuses the new profile, the user is
    shown the [error] of its answer, converted to a string, or [Failed to
    save profile] when that is falsy; [onSuccess] is not called although the
    account exists. An [error] that is truthy but converts to the empty
    string (an empty array) ends as [Sign up failed. Please try again.]. *)
Theorem refused_profile_shows_the_reason
    (signUp : string → string → thrown + SignUp.SignUpResult)
    (fetch : string → list (string * value) → thrown + Response)
    (onSuccess : thrown + unit) (s : SignUp.state) (trace : list effect)
    (result : SignUp.SignUpResult) (id : string) (response : Response)
    (profileError : json) (reason : value) (message : string) :
  is_empty (SignUp.email s) = false →
  (6 ≤ SignUp.length (SignUp.password s))%nat →
  signUp (SignUp.email s) (SignUp.password s) = inr result →
  SignUp.signUpError result = None →
  SignUp.user result = Some id →
  fetch "/api/profiles"
    [ ("id", Str id); ("email", Str (SignUp.email s)); ("subscription_plan", Str "free");
      ("free_images_generated", SignUp.zero) ] = inr response →
  ok response = false →
  body response = inr profileError →
  GetV profileError "error" = inr reason →
  ToString (or_else reason (Str "Failed to save profile")) = inr message →
  let shown := if is_empty message then "Sign up failed. Please try again." else message in
  ∃ new,
    SignUp.handleEmailSignUp signUp fetch onSuccess (s, trace) =
      (inr tt,
       ({| SignUp.email := SignUp.email s; SignUp.password := SignUp.password s;
           SignUp.loading := false; SignUp.error := Str shown |},
        trace ++ new)) ∧
    Called "onSuccess" ∉ new.
Proof.
  intros Hemail Hlength HsignUp Herror Huser Hfetch Hok Hbody Hreason Hmessage.
  pose proof (short_password_empty _ Hlength) as Hpassword.
  unfold SignUp.handleEmailSignUp, SignUp.setError, SignUp.setLoading, read, to_string.
  run_page. rewrite Hemail, Hpassword.
  destruct (Nat.ltb_spec (SignUp.length (SignUp.password s)) 6) as [?|_]; [lia|]. cbn.
  rewrite HsignUp. cbn. rewrite Herror, Huser. cbn. rewrite Hfetch. cbn.
  rewrite Hok, Hbody. cbn. rewrite Hreason. cbn. rewrite Hmessage. cbn.
  eexists. split.
  - rewrite <- ?app_assoc. unfold or_else. cbn. by destruct message.
  - intros Hin. elem_of_list Hin.
Qed.

(** X21. [handleGoogleSignIn] has no [finally]: it never throws, and
    [loading] is still true when it ends exactly when the sign-in and
    [onSuccess] both returned, with [error] null; in every other case
    [loading] is false and [error] is truthy. *)
Theorem google_sign_in_keeps_loading (signInWithGoogle onSuccess : thrown + unit)
    (s : SignUp.state) (trace : list effect) :
  ∃ busy verdict new,
    SignUp.handleGoogleSignIn signInWithGoogle onSuccess (s, trace) =
      (inr tt,
       ({| SignUp.email := SignUp.email s; SignUp.password := SignUp.password s;
           SignUp.loading := busy; SignUp.error := verdict |},
        trace ++ new)) ∧
    (busy = true ↔ signInWithGoogle = inr tt ∧ onSuccess = inr tt) ∧
    (busy = true → verdict = Json JNull) ∧
    (busy = false → ToBoolean verdict = true).
Proof.
  unfold SignUp.handleGoogleSignIn, SignUp.setError, SignUp.setLoading.
  run_page.
  destruct signInWithGoogle as [e|[]]; cbn.
  { eexists _, _, _. split; [by rewrite <- ?app_assoc|].
    split; [split; [done|by intros [[=] _]]|].
    split; [done|]. intros _. by apply or_else_truthy. }
  destruct onSuccess as [e|[]]; cbn.
  { eexists _, _, _. split; [by rewrite <- ?app_assoc|].
    split; [split; [done|by intros [_ [=]]]|].
    split; [done|]. intros _. by apply or_else_truthy. }
  eexists _, _, _. split; [by rewrite <- ?app_assoc|]. done.
Qed.

(** ** The migration script *)

Lemma split_cons (sep : ascii) (s : string) : ∃ piece pieces, Migration.split sep s = piece :: pieces.
Proof.
  induction s as [|c r (piece & pieces & IH)]; cbn; [by eexists _, _|].
  destruct (Ascii.eqb c sep); [by eexists _, _|]. rewrite IH. by eexists _, _.
Qed.

Lemma join_cons_cons (sep a b : string) (l : list string) :
  join sep (a :: b :: l) = a +:+ sep +:+ join sep (b :: l).
Proof. reflexivity. Qed.

Lemma join_split (sep : ascii) (s : string) :
  join (String sep "") (Migration.split sep s) = s.
Proof.
  induction s as [|c r IH]; [done|]. cbn [Migration.split].
  destruct (split_cons sep r) as (piece & pieces & Hr). rewrite Hr in *.
  destruct (Ascii.eqb_spec c sep) as [->|_].
  - rewrite join_cons_cons, IH. by rewrite app_nil, app_cons, app_nil.
  - destruct pieces as [|piece' pieces].
    + cbn in *. by rewrite IH.
    + rewrite join_cons_cons in *. by rewrite app_cons, IH.
Qed.

Lemma split_has_no_separator (sep : ascii) (s piece : string) :
  piece ∈ Migration.split sep s → Migration.has_byte sep piece = false.
Proof.
  revert piece. induction s as [|c r IH]; intros piece; cbn [Migration.split].
  - by intros ->%list_elem_of_singleton.
  - destruct (split_cons sep r) as (first & pieces & Hr). rewrite Hr in *.
    destruct (Ascii.eqb c sep) eqn:Hc.
    + intros [->|Hin]%elem_of_cons; [done|]. by apply IH.
    + intros [->|Hin]%elem_of_cons.
      * cbn. rewrite Hc. apply IH. by left.
      * apply IH. by right.
Qed.

Lemma elem_of_List_filter {A} (f : A → bool) (l : list A) (x : A) :
  x ∈ List.filter f l ↔ x ∈ l ∧ f x = true.
Proof. by rewrite !list_elem_of_In, filter_In. Qed.

(** X22. Splitting the file at its semicolons loses nothing: the pieces
    joined by semicolons are the file. Every statement that the fallback
    runs is one of these pieces, holds no semicolon (a semicolon inside a
    string literal or a comment cuts a statement in two) and is not blank
    under [trim]. *)
Theorem statements_are_the_nonblank_pieces (sql : string) :
  join ";" (Migration.split ";" sql) = sql ∧
  ∀ statement,
    statement ∈ Migration.statements sql →
    statement ∈ Migration.split ";" sql ∧
    Migration.has_byte ";" statement = false ∧
    is_empty (Migration.trim statement) = false.
Proof.
  split; [apply join_split|].
  intros statement. unfold Migration.statements.
  rewrite elem_of_List_filter, negb_true_iff. intros [Hin Hblank].
  split; [done|]. split; [by eapply split_has_no_separator|done].
Qed.

Lemma run_statements_effects (rpc : string → string → string → thrown + option thrown)
    (statements : list string) (trace : list effect) :
  ∃ r new,
    Migration.run_statements rpc statements (tt, trace) = (r, (tt, trace ++ new)) ∧
    forallb Migration.statement_effect new = true ∧
    ((∀ statement, ∃ stmtError, rpc "exec" "sql" statement = inr stmtError) →
     r = inr tt ∧
     Migration.rpcs new =
       map (Rpc "exec" "sql")
         (List.filter (λ s, negb (is_empty (Migration.trim s))) statements)).
Proof.
  revert trace. induction statements as [|statement rest IH]; intros trace.
  { exists (inr tt), []. by rewrite app_nil_r. }
  cbn [Migration.run_statements List.filter]. run_page.
  destruct (is_empty (Migration.trim statement)); cbn.
  { apply IH. }
  destruct (rpc "exec" "sql" statement) as [e|stmtError] eqn:Hrpc; cbn.
  { exists (inl e), [Rpc "exec" "sql" statement]. split; [done|]. split; [done|].
    intros Hrpcs. destruct (Hrpcs statement) as [? ?]. congruence. }
  destruct stmtError as [stmtError|]; cbn.
  - destruct (IH ((trace ++ [Rpc "exec" "sql" statement]) ++
                  [ConsoleLogged [Text "⚠️  Note:"; Val (message_of stmtError)]]))
      as (r & new & -> & Hnew & Hrpcs).
    exists r, (Rpc "exec" "sql" statement ::
               ConsoleLogged [Text "⚠️  Note:"; Val (message_of stmtError)] :: new).
    split; [by rewrite <- !app_assoc|]. split; [done|].
    intros [-> Heq]%Hrpcs. split; [done|].
    unfold Migration.rpcs in *. cbn [List.filter map]. by rewrite Heq.
  - destruct (IH (trace ++ [Rpc "exec" "sql" statement])) as (r & new & -> & Hnew & Hrpcs).
    exists r, (Rpc "exec" "sql" statement :: new).
    split; [by rewrite <- !app_assoc|]. split; [done|].
    intros [-> Heq]%Hrpcs. split; [done|].
    unfold Migration.rpcs in *. cbn [List.filter map]. by rewrite Heq.
Qed.

Lemma List_filter_idemp {A} (f : A → bool) (l : list A) :
  List.filter f (List.filter f l) = List.filter f l.
Proof.
  induction l as [|x l IH]; [done|]. cbn. destruct (f x) eqn:Hx; [|done].
  cbn. by rewrite Hx, IH.
Qed.

Lemma forallb_elem_of {A} (f : A → bool) (l : list A) (x : A) :
  forallb f l = true → x ∈ l → f x = true.
Proof. rewrite forallb_forall, list_elem_of_In. auto. Qed.

(** A run of [applyMigration] on a file that can be read. *)
Lemma applyMigration_run (sql : string)
    (rpc : string → string → string → thrown + option thrown) (trace : list effect) :
  ∃ fallback ending,
    Migration.applyMigration (inr sql) rpc (tt, trace) =
      (inr tt,
       (tt,
        trace ++
        [ ConsoleLogged [Text "📖 Reading migration file..."];
          ConsoleLogged
            [Text "🔄 Applying migration to add brand_style_context column..."];
          Rpc "exec_sql" "sql_query" sql ] ++ fallback ++ ending)) ∧
    (ending = Migration.reported_success ∨
     ∃ err, ending = Migration.reported_failure err sql) ∧
    ((fallback = [] ∧
      ((rpc "exec_sql" "sql_query" sql = inr None ∧
        ending = Migration.reported_success) ∨
       ∃ err, rpc "exec_sql" "sql_query" sql = inl err)) ∨
     ∃ error stmts,
       rpc "exec_sql" "sql_query" sql = inr (Some error) ∧
       fallback =
         ConsoleLogged
           [Text "⚠️  exec_sql RPC not available, attempting direct query..."] :: stmts ∧
       forallb Migration.statement_effect stmts = true ∧
       ((∀ statement, ∃ stmtError, rpc "exec" "sql" statement = inr stmtError) →
        ending = Migration.reported_success ∧
        Migration.rpcs stmts = map (Rpc "exec" "sql") (Migration.statements sql))).
Proof.
  unfold Migration.applyMigration, Migration.log. run_page.
  destruct (rpc "exec_sql" "sql_query" sql) as [err|[error|]] eqn:Hrpc; cbn.
  - exists [], (Migration.reported_failure err sql).
    split; [by rewrite <- !app_assoc|]. split; [right; by eexists|].
    left. split; [done|]. right. by eexists.
  - match goal with
    | |- context [Migration.run_statements rpc ?l (tt, ?tr)] =>
        destruct (run_statements_effects rpc l tr) as (r & stmts & Hrun & Hstmts & Hall)
    end.
    rewrite Hrun. clear Hrun.
    destruct r as [err|[]]; cbn.
    + eexists (_ :: stmts), (Migration.reported_failure err sql).
      split; [by rewrite <- !app_assoc|]. split; [right; by eexists|].
      right. exists error, stmts. split; [done|]. split; [done|]. split; [done|].
      by intros [[=] _]%Hall.
    + eexists (_ :: stmts), Migration.reported_success.
      split; [by rewrite <- !app_assoc|]. split; [by left|].
      right. exists error, stmts. split; [done|]. split; [done|]. split; [done|].
      intros [_ ->]%Hall. split; [done|].
      unfold Migration.statements. by rewrite List_filter_idemp.
  - exists [], Migration.reported_success.
    split; [by rewrite <- !app_assoc|]. split; [by left|].
    left. split; [done|]. by left.
Qed.

Lemma rpcs_app (a b : list effect) :
  Migration.rpcs (a ++ b) = Migration.rpcs a ++ Migration.rpcs b.
Proof. apply List.filter_app. Qed.

(** X23. Errors that the database returns do not stop the migration.
    When [exec_sql] returns an error and no call throws, the script calls
    [exec] once for every statement of the file, in order, whatever errors
    these calls return; it then reports [Migration applied successfully!],
    writes nothing to [console.error] and does not exit with a code. *)
Theorem statement_errors_do_not_stop_the_migration (sql : string)
    (rpc : string → string → string → thrown + option thrown) (error : thrown)
    (trace : list effect) :
  rpc "exec_sql" "sql_query" sql = inr (Some error) →
  (∀ statement, ∃ stmtError, rpc "exec" "sql" statement = inr stmtError) →
  ∃ new,
    Migration.applyMigration (inr sql) rpc (tt, trace) = (inr tt, (tt, trace ++ new)) ∧
    Migration.rpcs new =
      Rpc "exec_sql" "sql_query" sql ::
      map (Rpc "exec" "sql") (Migration.statements sql) ∧
    Migration.applied ∈ new ∧
    (∀ code, Exited code ∉ new) ∧
    (∀ args, ConsoleErrored args ∉ new).
Proof.
  intros Hexec_sql Hexec.
  destruct (applyMigration_run sql rpc trace) as (fallback & ending & -> & _ & Hcases).
  destruct Hcases as [(_ & [[? _]|[? ?]])|(? & stmts & _ & -> & Hstmts & Hall)];
    [congruence..|].
  destruct (Hall Hexec) as [-> Hrpcs].
  eexists. split; [reflexivity|]. split; [|split; [|split]].
  - cbn [app]. unfold Migration.rpcs at 1. cbn [List.filter]. f_equal.
    fold (Migration.rpcs (stmts ++ Migration.reported_success)).
    by rewrite rpcs_app, Hrpcs, app_nil_r.
  - rewrite !elem_of_app. right. right. by left.
  - intros code Hin. cbn [app] in Hin.
    do 4 (apply elem_of_cons in Hin as [?|Hin]; [done|]).
    apply elem_of_app in Hin as [Hin|Hin].
    + by apply (forallb_elem_of _ _ _ Hstmts) in Hin.
    + unfold Migration.reported_success, Migration.applied in Hin. elem_of_list Hin.
  - intros args Hin. cbn [app] in Hin.
    do 4 (apply elem_of_cons in Hin as [?|Hin]; [done|]).
    apply elem_of_app in Hin as [Hin|Hin].
    + by apply (forallb_elem_of _ _ _ Hstmts) in Hin.
    + unfold Migration.reported_success, Migration.applied in Hin. elem_of_list Hin.
Qed.

(** X24. With a file that can be read, [applyMigration] never throws and
    ends in one of two ways, whatever the database does. Either it reports
    success, with no [console.error] and no exit code; or it reports
    [Migration failed:] with the message of an error, prints the SQL for the manual migration and exits with code 1 as its last
    step, without having reported success. *)
Theorem migration_reports_success_or_exits (sql : string)
    (rpc : string → string → string → thrown + option thrown) (trace : list effect) :
  ∃ new,
    Migration.applyMigration (inr sql) rpc (tt, trace) = (inr tt, (tt, trace ++ new)) ∧
    ((Migration.applied ∈ new ∧ (∀ code, Exited code ∉ new) ∧
      (∀ args, ConsoleErrored args ∉ new))
     ∨
     ((Migration.applied ∉ new) ∧ last new = Some (Exited 1) ∧
      ConsoleLogged [Text (nl +:+ sql)] ∈ new ∧
      ∃ err, ConsoleErrored [Text "❌ Migration failed:"; Val (message_of err)] ∈ new)).
Proof.
  destruct (applyMigration_run sql rpc trace) as (fallback & ending & -> & Hending & Hcases).
  eexists. split; [reflexivity|].
  assert (Hfallback : ∀ e, e ∈ fallback →
            Migration.statement_effect e = true ∨
            e = ConsoleLogged
                  [Text "⚠️  exec_sql RPC not available, attempting direct query..."]).
  { intros e Hin.
    destruct Hcases as [(-> & _)|(? & stmts & _ & -> & Hstmts & _)].
    - by apply elem_of_nil in Hin.
    - apply elem_of_cons in Hin as [->|Hin]; [by right|].
      left. by apply (forallb_elem_of _ _ _ Hstmts). }
  destruct Hending as [->|[err ->]]; [left|right].
  - split; [rewrite !elem_of_app; right; right; by left|].
    split.
    + intros code Hin. cbn [app] in Hin.
      do 3 (apply elem_of_cons in Hin as [?|Hin]; [done|]).
      apply elem_of_app in Hin as [[?|?]%Hfallback|Hin]; [done..|].
      unfold Migration.reported_success, Migration.applied in Hin. elem_of_list Hin.
    + intros args Hin. cbn [app] in Hin.
      do 3 (apply elem_of_cons in Hin as [?|Hin]; [done|]).
      apply elem_of_app in Hin as [[?|?]%Hfallback|Hin]; [done..|].
      unfold Migration.reported_success, Migration.applied in Hin. elem_of_list Hin.
  - split; [|split; [|split]].
    + intros Hin. cbn [app] in Hin. unfold Migration.applied in Hin.
      do 3 (apply elem_of_cons in Hin as [?|Hin]; [done|]).
      apply elem_of_app in Hin as [[?|?]%Hfallback|Hin]; [done..|].
      unfold Migration.reported_failure in Hin. elem_of_list Hin.
    + rewrite !app_assoc. unfold Migration.reported_failure.
      change [?a; ?b; ?c; ?d; ?e; ?f; ?g] with ([a; b; c; d; e; f] ++ [g]).
      by rewrite app_assoc, last_snoc.
    + rewrite !elem_of_app. right. right. unfold Migration.reported_failure.
      do 5 right. left.
    + exists err. rewrite !elem_of_app. right. right. by left.
Qed.

(** X25. When the migration file cannot be read, the [catch] block reads
    it again to print it and so throws the same error itself: the error
    leaves [applyMigration], after [Migration failed:] and the first lines
    of the instructions. No SQL is printed, [process.exit(1)] is not
    reached and the database is not called. *)
Theorem unreadable_file_escapes (error : thrown)
    (rpc : string → string → string → thrown + option thrown) (trace : list effect) :
  Migration.applyMigration (inl error) rpc (tt, trace) =
    (inl error,
     (tt,
      trace ++
      [ ConsoleLogged [Text "📖 Reading migration file..."];
        ConsoleErrored [Text "❌ Migration failed:"; Val (message_of error)];
        ConsoleLogged [Text (nl +:+ "📝 Manual migration instructions:")];
        ConsoleLogged [Text "1. Go to your Supabase dashboard"];
        ConsoleLogged [Text "2. Navigate to SQL Editor"];
        ConsoleLogged [Text "3. Run the following SQL:"] ])).
Proof.
  unfold Migration.applyMigration, Migration.log. run_page. by rewrite <- !app_assoc.
Qed.

(** X26. The script calls the database only when both environment
    variables are set and not empty, the client was created and the
    migration file could be read. *)
Theorem database_calls_need_credentials_and_file
    (supabaseUrl supabaseServiceKey : option string)
    (createClient : thrown + unit) (readFile : thrown + string)
    (rpc : string → string → string → thrown + option thrown) (trace : list effect) :
  ∃ new,
    (Migration.main supabaseUrl supabaseServiceKey createClient readFile rpc
       (tt, trace)).2.2 = trace ++ new ∧
    ∀ fn param arg,
      Rpc fn param arg ∈ new →
      ∃ url key sql,
        supabaseUrl = Some url ∧ is_empty url = false ∧
        supabaseServiceKey = Some key ∧ is_empty key = false ∧
        createClient = inr tt ∧ readFile = inr sql.
Proof.
  unfold Migration.main. run_page.
  destruct supabaseUrl as [[|c url]|]; cbn;
    try (eexists; split; [by rewrite <- !app_assoc|];
         intros fn param arg Hin; elem_of_list Hin).
  destruct supabaseServiceKey as [[|c' key]|]; cbn;
    try (eexists; split; [by rewrite <- !app_assoc|];
         intros fn param arg Hin; elem_of_list Hin).
  destruct createClient as [e|[]]; cbn.
  { exists []. split; [by rewrite app_nil_r|]. intros fn param arg Hin.
    by apply elem_of_nil in Hin. }
  destruct readFile as [error|sql].
  { unfold Migration.applyMigration, Migration.log. run_page.
    eexists. split; [by rewrite <- !app_assoc|].
    intros fn param arg Hin. elem_of_list Hin. }
  destruct (applyMigration_run sql rpc trace) as (fallback & ending & -> & _).
  eexists. split; [reflexivity|]. intros _ _ _ _.
  by exists (String c url), (String c' key), sql.
Qed.

(** ** The endpoint as seen by the prompt composer *)

(** X9. [generateSmartPrompt] asks the endpoint one question: the record
    with the brief as the only user part, the system prompt of the creative
    director and the JSON response type. Two endpoints that answer this one
    request alike give the same prompt and the same console output, however
    they differ elsewhere. *)
Theorem endpoint_is_asked_one_question
    (industryKeywords eventKeywords : gmap string string)
    (endpoint1 endpoint2 : GenerateContentRequest → exn + GenerateContentResult)
    (event industry : string) (brandStyleContext : option string)
    (out : list console_entry) (brief : string) :
  client_brief event industry brandStyleContext = inr brief →
  endpoint1
    {| contents := [ {| role := "user"; parts := [ {| text := Some brief |} ] |} ];
       systemInstruction := CREATIVE_DIRECTOR_SYSTEM_PROMPT;
       generationConfig := {| responseMimeType := "application/json" |} |} =
  endpoint2
    {| contents := [ {| role := "user"; parts := [ {| text := Some brief |} ] |} ];
       systemInstruction := CREATIVE_DIRECTOR_SYSTEM_PROMPT;
       generationConfig := {| responseMimeType := "application/json" |} |} →
  generateSmartPrompt industryKeywords eventKeywords endpoint1
    event industry brandStyleContext out =
  generateSmartPrompt industryKeywords eventKeywords endpoint2
    event industry brandStyleContext out.
Proof.
  intros Hbrief Hsame.
  unfold generateSmartPrompt, try_catch, primary_path, creative_director_request in *.
  unfold mbind, M_bind, lift. cbv beta iota zeta. rewrite Hbrief.
  cbv beta iota zeta. by rewrite Hsame.
Qed.

(** X30. [generateStaticPrompt] reads at most four rows of the imported
    tables: the rows of the industry and of [Education] in the one, the rows
    of the event and of [Republic Day] in the other. Two pairs of tables that
    agree on these rows give the same result, however they differ in their
    other rows. *)
Theorem static_prompt_reads_four_rows
    (industryKeywords1 industryKeywords2 eventKeywords1 eventKeywords2 : gmap string string)
    (event industry : string) (brandStyleContext : option string) :
  industryKeywords1 !! industry = industryKeywords2 !! industry →
  industryKeywords1 !! "Education" = industryKeywords2 !! "Education" →
  eventKeywords1 !! event = eventKeywords2 !! event →
  eventKeywords1 !! "Republic Day" = eventKeywords2 !! "Republic Day" →
  generateStaticPrompt industryKeywords1 eventKeywords1 event industry brandStyleContext =
  generateStaticPrompt industryKeywords2 eventKeywords2 event industry brandStyleContext.
Proof.
  intros Hindustry Heducation Hevent Hrepublic.
  unfold generateStaticPrompt, Get.
  by rewrite Hindustry, Heducation, Hevent, Hrepublic.
Qed.

(** ** The page [AuthCallback] *)

Ltac run_callback :=
  unfold AuthCallback.handleCallback, AuthCallback.profile_id, read;
  run_page;
  repeat match goal with
         | |- context [match ?x with _ => _ end] =>
             lazymatch x with
             | context [match _ with _ => _ end] => fail
             | _ => destruct x eqn:?
             end; cbn [fst snd negb]
         end.

(** Paths that no run takes: reading a property throws on [null] only,
    and the profile whose [id] is logged is truthy. *)
Ltac callback_unreachable :=
  exfalso;
  first
    [ done
    | match goal with
      | H : GetV ?j _ = inl _, H' : negb (ToBoolean (Json ?j)) = false |- _ =>
          by destruct j
      end ].

(** X27. [handleCallback] never throws and navigates exactly once, as the
    last thing it does. It goes to [/] exactly when the client was created,
    [getSession] gave a session without error and neither call of
    [sessionStorage] threw; in every other case it goes to [/login]. What
    the profile query and the profile endpoint do has no part in it: a
    failure to create the profile does not block the login. *)
Theorem callback_navigates_once
    (createClient : thrown + unit) (getSession : thrown + AuthCallback.SessionResult)
    (getItem : thrown + option string) (profileQuery : string → thrown + json)
    (fetch : string → list (string * value) → thrown + Response)
    (removeItem : thrown + unit) (trace : list effect) :
  ∃ new path,
    AuthCallback.handleCallback createClient getSession getItem profileQuery fetch
      removeItem (tt, trace) = (inr tt, (tt, trace ++ new)) ∧
    last new = Some (Pushed path) ∧
    AuthCallback.navigations new = [Pushed path] ∧
    (path = "/" ∨ path = "/login") ∧
    (path = "/" ↔
     createClient = inr tt ∧ removeItem = inr tt ∧
     ∃ result user item,
       getSession = inr result ∧ AuthCallback.sessionError result = None ∧
       AuthCallback.session result = Some user ∧ getItem = inr item).
Proof.
  run_callback.
  all: try callback_unreachable.
  all: eexists _, _; (split; [by rewrite <- ?app_assoc|]).
  all: split; [reflexivity|]; split; [reflexivity|].
  all: first
    [ split; [by left|]; split; [intros _|done];
      repeat match goal with u : unit |- _ => destruct u end;
      split; [done|]; split; [done|]; by eexists _, _, _
    | split; [by right|]; split; [by intros [=]|];
      intros (? & ? & ? & ? & ? & ? & ? & ? & ?); congruence ].
Qed.

(** X28. [handleCallback] makes at most one request, a POST to
    [/api/profiles], and only for a session whose user has a truthy id: the
    profile of a new signup when [is_new_signup] is [true] in the session
    storage, the minimal profile otherwise. Without a session, or with a
    user without id, it makes none. *)
Theorem callback_requests_need_a_user
    (createClient : thrown + unit) (getSession : thrown + AuthCallback.SessionResult)
    (getItem : thrown + option string) (profileQuery : string → thrown + json)
    (fetch : string → list (string * value) → thrown + Response)
    (removeItem : thrown + unit) (trace : list effect) :
  ∃ new,
    (AuthCallback.handleCallback createClient getSession getItem profileQuery fetch
       removeItem (tt, trace)).2.2 = trace ++ new ∧
    (AuthCallback.requests new = [] ∨
     ∃ result user item id,
       getSession = inr result ∧ AuthCallback.session result = Some user ∧
       getItem = inr item ∧ AuthCallback.truthy_id user = Some id ∧
       AuthCallback.requests new =
         [ Fetched "/api/profiles"
             (Some (if AuthCallback.is_true item
                    then AuthCallback.new_profile id user
                    else AuthCallback.minimal_profile id user)) ]).
Proof.
  run_callback.
  all: try callback_unreachable.
  all: eexists; (split; [by rewrite <- ?app_assoc|]).
  all: first
    [ by left
    | right;
      match goal with
      | U : AuthCallback.session ?result = Some ?user,
        D : AuthCallback.truthy_id ?user = Some ?id, I : _ = inr ?item |- _ =>
          lazymatch type of item with
          | option string => exists result, user, item, id
          end
      end;
      match goal with H : AuthCallback.is_true _ = _ |- _ => rewrite H end;
      done ].
Qed.

(** X29. Which profile the callback posts, for a session whose user has a
    truthy id. A new signup posts the free plan with zero generated images,
    whether or not the user has a profile already. Any other login posts the
    minimal profile (id and email, no plan) when the profile query returned
    nothing truthy or threw, and posts nothing when it returned a
    profile. *)
Theorem callback_posts_by_case
    (createClient : thrown + unit) (getSession : thrown + AuthCallback.SessionResult)
    (getItem : thrown + option string) (profileQuery : string → thrown + json)
    (fetch : string → list (string * value) → thrown + Response)
    (removeItem : thrown + unit) (trace : list effect)
    (result : AuthCallback.SessionResult) (user : option AuthCallback.SessionUser)
    (item : option string) (id : string) :
  createClient = inr tt →
  getSession = inr result →
  AuthCallback.sessionError result = None →
  AuthCallback.session result = Some user →
  getItem = inr item →
  AuthCallback.truthy_id user = Some id →
  ∃ new,
    (AuthCallback.handleCallback createClient getSession getItem profileQuery fetch
       removeItem (tt, trace)).2.2 = trace ++ new ∧
    AuthCallback.requests new =
      if AuthCallback.is_true item
      then [Fetched "/api/profiles" (Some (AuthCallback.new_profile id user))]
      else
        match profileQuery id with
        | inr profile =>
            if ToBoolean (Json profile) then []
            else [Fetched "/api/profiles" (Some (AuthCallback.minimal_profile id user))]
        | inl _ => [Fetched "/api/profiles" (Some (AuthCallback.minimal_profile id user))]
        end.
Proof.
  intros -> -> Herror Hsession -> Hid.
  unfold AuthCallback.handleCallback, AuthCallback.profile_id, read. run_page.
  rewrite Herror, Hsession. cbn [fst snd]. rewrite Hid. cbn [fst snd].
  repeat match goal with
         | |- context [match ?x with _ => _ end] =>
             lazymatch x with
             | context [match _ with _ => _ end] => fail
             | _ => destruct x eqn:?
             end; cbn [fst snd negb]
         end.
  all: try callback_unreachable.
  all: eexists; (split; [by rewrite <- ?app_assoc|]).
  all: first [ reflexivity | cbn in *; congruence ].
Qed.

(** ** The further properties at sample inputs *)

(** X4, witness: Lohri for a real-estate brand. *)
Lemma known_keys_use_their_phrases_witness :
  generateStaticPrompt sample_industryKeywords sample_eventKeywords
    "Lohri" "Real Estate" None =
    inr (static_template "Lohri" "Real Estate"
           "modern architecture, keys, skyline" "bonfire, dhol, winter night" +:+ "").
Proof.
  apply (known_keys_use_their_phrases sample_industryKeywords sample_eventKeywords
           "Lohri" "Real Estate" None
           "modern architecture, keys, skyline" "bonfire, dhol, winter night");
    vm_compute; reflexivity.
Defined.

(** X5, witness: rows for Diwali and Retail that hold the empty string. *)
Lemma empty_phrase_is_a_missing_key_witness :
  generateStaticPrompt (<["Retail" := ""]> sample_industryKeywords)
    (<["Diwali" := ""]> sample_eventKeywords) "Diwali" "Retail" None =
    inr (static_template "Diwali" "Retail"
           "books, classroom, graduation caps"
           "tricolor flag, India Gate, saffron white green" +:+ "").
Proof.
  apply (empty_phrase_is_a_missing_key (<["Retail" := ""]> sample_industryKeywords)
           (<["Diwali" := ""]> sample_eventKeywords) "Diwali" "Retail" None
           "books, classroom, graduation caps"
           "tricolor flag, India Gate, saffron white green");
    vm_compute; reflexivity.
Defined.

(** X6, witness: empty tables. *)
Lemma missing_default_rows_print_undefined_witness :
  generateStaticPrompt ∅ ∅ "Lohri" "Education" None =
    inr (static_template "Lohri" "Education" "undefined" "undefined" +:+ "").
Proof.
  apply (missing_default_rows_print_undefined ∅ ∅ "Lohri" "Education" None);
    vm_compute; reflexivity.
Defined.

(** X7, witness: the answer has a usable [image_prompt], and is lost. *)
Lemma unprintable_reasoning_discards_the_answer_witness :
  generateSmartPrompt sample_industryKeywords sample_eventKeywords
    (upstream_text answer_with_own_toString) "Lohri" "Education" None [] =
    (generateStaticPrompt sample_industryKeywords sample_eventKeywords
       "Lohri" "Education" None,
     [] ++
     [ ConsoleLog ("🧠 Creative Director: Analyzing strategy for " +:+ "Lohri" +:+ " in "
                   +:+ "Education" +:+ "...");
       ConsoleError "⚠️ Creative Director unavailable, falling back to keywords:"
         TypeError ]).
Proof.
  apply (unprintable_reasoning_discards_the_answer
           sample_industryKeywords sample_eventKeywords
           (upstream_text answer_with_own_toString) "Lohri" "Education" None []
           answer_with_own_toString
           (JObject [ ("reasoning", JObject [("toString", JString "B2C")]);
                      ("image_prompt", JString "A bonfire at dusk") ])
           (Json (JObject [("toString", JString "B2C")])) TypeError);
    vm_compute; reflexivity.
Defined.

(** X8, witness: the answers [null] and [true]. *)
Lemma answer_that_is_not_an_object_witness :
  (generateSmartPrompt sample_industryKeywords sample_eventKeywords
     (upstream_text "null") "Lohri" "Education" None []).1 =
    generateStaticPrompt sample_industryKeywords sample_eventKeywords
      "Lohri" "Education" None ∧
  (generateSmartPrompt sample_industryKeywords sample_eventKeywords
     (upstream_text "true") "Lohri" "Education" None []).1 =
    inr ("undefined" +:+ TECHNICAL_SPECS +:+ style_clause None).
Proof.
  split.
  - apply (answer_that_is_not_an_object sample_industryKeywords sample_eventKeywords
             (upstream_text "null") "Lohri" "Education" None [] "null" JNull);
      vm_compute; reflexivity.
  - apply (answer_that_is_not_an_object sample_industryKeywords sample_eventKeywords
             (upstream_text "true") "Lohri" "Education" None [] "true" (JBool true));
      vm_compute; reflexivity.
Defined.

(** X9, witness: an endpoint that answers everything and one that answers
    the creative director only. *)
Lemma endpoint_is_asked_one_question_witness :
  generateSmartPrompt sample_industryKeywords sample_eventKeywords
    (upstream_text sample_answer) "Lohri" "Education" None [] =
  generateSmartPrompt sample_industryKeywords sample_eventKeywords
    (upstream_strict sample_answer) "Lohri" "Education" None [].
Proof.
  eapply (endpoint_is_asked_one_question sample_industryKeywords sample_eventKeywords
            (upstream_text sample_answer) (upstream_strict sample_answer)
            "Lohri" "Education" None []).
  - vm_compute; reflexivity.
  - vm_compute; reflexivity.
Defined.

(** X30, witness: the sample tables, and the same with a row for Diwali
    and a row for Retail. *)
Lemma static_prompt_reads_four_rows_witness :
  generateStaticPrompt sample_industryKeywords sample_eventKeywords
    "Lohri" "Real Estate" (Some "warm, earthy") =
  generateStaticPrompt (<["Retail" := "shop windows, price tags"]> sample_industryKeywords)
    (<["Diwali" := "oil lamps, rangoli"]> sample_eventKeywords)
    "Lohri" "Real Estate" (Some "warm, earthy").
Proof.
  apply (static_prompt_reads_four_rows sample_industryKeywords
           (<["Retail" := "shop windows, price tags"]> sample_industryKeywords)
           sample_eventKeywords
           (<["Diwali" := "oil lamps, rangoli"]> sample_eventKeywords)
           "Lohri" "Real Estate" (Some "warm, earthy"));
    vm_compute; reflexivity.
Defined.

(** X14, witness: a profile with an industry and no logo. *)
Lemma hook_and_wrapper_agree_witness :
  BrandReady.isReady
    (BrandReady.checkBrandReady (profile_found sample_profile) sample_user
       (BrandReady.initial, [])).2.1 = ToBoolean (Str "Education") ∧
  BrandReady.loading
    (BrandReady.checkBrandReady (profile_found sample_profile) sample_user
       (BrandReady.initial, [])).2.1 = false ∧
  Onboarding.isReady
    (Onboarding.checkUserProfile (profile_found sample_profile) sample_user
       (Onboarding.initial, [])).2.1 =
    BrandReady.isReady
      (BrandReady.checkBrandReady (profile_found sample_profile) sample_user
         (BrandReady.initial, [])).2.1 ∧
  Onboarding.showModal
    (Onboarding.checkUserProfile (profile_found sample_profile) sample_user
       (Onboarding.initial, [])).2.1 =
    negb (BrandReady.isReady
            (BrandReady.checkBrandReady (profile_found sample_profile) sample_user
               (BrandReady.initial, [])).2.1).
Proof.
  apply (hook_and_wrapper_agree (profile_found sample_profile) sample_user
           {| ok := true; body := inr sample_profile |} sample_profile
           (Str "Education") BrandReady.initial Onboarding.initial [] []);
    vm_compute; reflexivity.
Defined.

(** X15, witness: the profile endpoint answers 404. *)
Lemma unavailable_profile_is_a_dead_end_witness :
  (BrandReady.checkBrandReady profile_missing sample_user (BrandReady.initial, [])).2.1 =
    {| BrandReady.isReady := false; BrandReady.loading := false |} ∧
  (Onboarding.checkUserProfile profile_missing sample_user (Onboarding.initial, [])).2.1 =
    Onboarding.initial ∧
  (Onboarding.checkUserProfile profile_missing sample_user (Onboarding.initial, [])).1 =
    inr tt.
Proof.
  apply (unavailable_profile_is_a_dead_end profile_missing sample_user
           BrandReady.initial Onboarding.initial [] []).
  apply (response_not_ok profile_missing sample_user
           {| ok := false;
              body := inr (JObject [("error", JString "Profile not found")]) |});
    vm_compute; reflexivity.
Defined.

(** X17, witness: a password of five characters. *)
Lemma invalid_form_calls_nothing_witness :
  ∃ message,
    SignUp.handleEmailSignUp (signUp_creates "7f3c") profile_saved (inr tt)
      (short_form, []) =
      (inr tt,
       ({| SignUp.email := SignUp.email short_form;
           SignUp.password := SignUp.password short_form;
           SignUp.loading := SignUp.loading short_form; SignUp.error := Str message |},
        [] ++ [Called "e.preventDefault"])) ∧
    (message = "Please enter email and password" ∨
     message = "Password must be at least 6 characters").
Proof.
  apply (invalid_form_calls_nothing (signUp_creates "7f3c") profile_saved (inr tt)
           short_form []).
  vm_compute; reflexivity.
Defined.

(** X18, witness: a valid form, a created user and a saved profile. *)
Lemma submitted_form_gets_one_verdict_witness :
  ∃ verdict new,
    SignUp.handleEmailSignUp (signUp_creates "7f3c") profile_saved (inr tt)
      (sample_form, []) =
      (inr tt,
       ({| SignUp.email := SignUp.email sample_form;
           SignUp.password := SignUp.password sample_form;
           SignUp.loading := false; SignUp.error := verdict |},
        [] ++ new)) ∧
    ((verdict = Json JNull ∧ (inr tt : thrown + unit) = inr tt ∧
      last new = Some (Called "onSuccess") ∧
      ∃ result id response,
        signUp_creates "7f3c" (SignUp.email sample_form) (SignUp.password sample_form) =
          inr result ∧
        SignUp.signUpError result = None ∧ SignUp.user result = Some id ∧
        profile_saved "/api/profiles"
          [ ("id", Str id); ("email", Str (SignUp.email sample_form));
            ("subscription_plan", Str "free");
            ("free_images_generated", SignUp.zero) ] = inr response ∧
        ok response = true)
     ∨
     (ToBoolean verdict = true ∧
      ∃ err, last new = Some (ConsoleErrored [Text "❌ Sign up error:"; Caught err]) ∧
             verdict = or_else (message_of err) (Str "Sign up failed. Please try again."))).
Proof.
  apply (submitted_form_gets_one_verdict (signUp_creates "7f3c") profile_saved (inr tt)
           sample_form []).
  - vm_compute; reflexivity.
  - vm_compute; lia.
Defined.

(** X20, witness: an endpoint that refuses with a sentence, and one that
    refuses with an empty array. *)
Lemma refused_profile_shows_the_reason_witness :
  (∃ new,
     SignUp.handleEmailSignUp (signUp_creates "7f3c")
       (profile_refused (JString "Email already registered")) (inr tt)
       (sample_form, []) =
       (inr tt,
        ({| SignUp.email := SignUp.email sample_form;
            SignUp.password := SignUp.password sample_form;
            SignUp.loading := false; SignUp.error := Str "Email already registered" |},
         [] ++ new)) ∧
     Called "onSuccess" ∉ new) ∧
  (∃ new,
     SignUp.handleEmailSignUp (signUp_creates "7f3c")
       (profile_refused (JArray [])) (inr tt) (sample_form, []) =
       (inr tt,
        ({| SignUp.email := SignUp.email sample_form;
            SignUp.password := SignUp.password sample_form;
            SignUp.loading := false;
            SignUp.error := Str "Sign up failed. Please try again." |},
         [] ++ new)) ∧
     Called "onSuccess" ∉ new).
Proof.
  split.
  - apply (refused_profile_shows_the_reason (signUp_creates "7f3c")
             (profile_refused (JString "Email already registered")) (inr tt)
             sample_form []
             {| SignUp.user := Some "7f3c"; SignUp.signUpError := None |} "7f3c"
             {| ok := false;
                body := inr (JObject [("error", JString "Email already registered")]) |}
             (JObject [("error", JString "Email already registered")])
             (Str "Email already registered") "Email already registered").
    + vm_compute; reflexivity.
    + vm_compute; lia.
    + vm_compute; reflexivity.
    + vm_compute; reflexivity.
    + vm_compute; reflexivity.
    + vm_compute; reflexivity.
    + vm_compute; reflexivity.
    + vm_compute; reflexivity.
    + vm_compute; reflexivity.
    + vm_compute; reflexivity.
  - apply (refused_profile_shows_the_reason (signUp_creates "7f3c")
             (profile_refused (JArray [])) (inr tt) sample_form []
             {| SignUp.user := Some "7f3c"; SignUp.signUpError := None |} "7f3c"
             {| ok := false; body := inr (JObject [("error", JArray [])]) |}
             (JObject [("error", JArray [])]) (Json (JArray [])) "").
    + vm_compute; reflexivity.
    + vm_compute; lia.
    + vm_compute; reflexivity.
    + vm_compute; reflexivity.
    + vm_compute; reflexivity.
    + vm_compute; reflexivity.
    + vm_compute; reflexivity.
    + vm_compute; reflexivity.
    + vm_compute; reflexivity.
    + vm_compute; reflexivity.
Defined.

(** X23, witness: the migration file of the repository on a database that
    has neither [exec_sql] nor [exec]. *)
Lemma statement_errors_do_not_stop_the_migration_witness :
  ∃ new,
    Migration.applyMigration (inr Migration.migration_add_brand_style_context_sql)
      rpc_unavailable (tt, []) = (inr tt, (tt, [] ++ new)) ∧
    Migration.rpcs new =
      Rpc "exec_sql" "sql_query" Migration.migration_add_brand_style_context_sql ::
      map (Rpc "exec" "sql")
        (Migration.statements Migration.migration_add_brand_style_context_sql) ∧
    Migration.applied ∈ new ∧
    (∀ code, Exited code ∉ new) ∧
    (∀ args, ConsoleErrored args ∉ new).
Proof.
  apply (statement_errors_do_not_stop_the_migration
           Migration.migration_add_brand_style_context_sql rpc_unavailable
           (new_Error "Could not find the function in the schema cache") []).
  - reflexivity.
  - intros statement. eexists. reflexivity.
Defined.

(** X29, witness: a new signup of a user who has a profile already. *)
Lemma callback_posts_by_case_witness :
  ∃ new,
    (AuthCallback.handleCallback (inr tt) (inr sample_session) (inr (Some "true"))
       profile_exists profile_saved (inr tt) (tt, [])).2.2 = [] ++ new ∧
    AuthCallback.requests new =
      [ Fetched "/api/profiles"
          (Some (AuthCallback.new_profile "7f3c" (Some sample_session_user))) ].
Proof.
  apply (callback_posts_by_case (inr tt) (inr sample_session) (inr (Some "true"))
           profile_exists profile_saved (inr tt) [] sample_session
           (Some sample_session_user) (Some "true") "7f3c");
    reflexivity.
Defined.

(** ** Runs of the pages and of the script *)

(** [trim], [split] and the statements of the migration file: two, each
    with the comment lines before it. *)
Example statements_of_the_migration :
  Migration.trim (nl +:+ "  ALTER TABLE profiles " +:+ nl) = "ALTER TABLE profiles" ∧
  Migration.split ";" "a;;b;" = ["a"; ""; "b"; ""] ∧
  Migration.statements ("a; " +:+ nl +:+ ";b;") = ["a"; "b"] ∧
  Migration.statements Migration.migration_add_brand_style_context_sql =
    [ "-- Add brand_style_context column to profiles table" +:+ nl +:+
      "-- This column stores the AI-generated brand analysis and style description"
      +:+ nl +:+ nl +:+
      "ALTER TABLE profiles" +:+ nl +:+
      "ADD COLUMN IF NOT EXISTS brand_style_context TEXT";
      nl +:+ nl +:+ "-- Add a comment to describe the column" +:+ nl +:+
      "COMMENT ON COLUMN profiles.brand_style_context IS 'AI-generated brand analysis and style description based on logo and brand information'" ].
Proof. repeat split; vm_compute; reflexivity. Qed.

(** The length of a password in UTF-16 code units. *)
Example length_counts_code_units :
  SignUp.length "s3cret!" = 7%nat ∧
  SignUp.length "pässe" = 5%nat ∧
  SignUp.length "日本語" = 3%nat ∧
  SignUp.length "🔑🔑🔑" = 6%nat.
Proof. repeat split; vm_compute; reflexivity. Qed.

(** A first visit: the profile has no industry yet, the modal opens, the
    user completes the onboarding, and the hook hears of it. *)
Example first_visit :
  let fetch := profile_found (JObject [("email", JString "asha@example.com")]) in
  let opened :=
    Onboarding.run [Onboarding.Effect fetch false (Some sample_user)]
      (Onboarding.initial, []) in
  let completed := Onboarding.run [Onboarding.Complete] opened in
  Onboarding.render false (Some sample_user) opened.1 = Some true ∧
  Onboarding.userEmail opened.1 = Str "asha@example.com" ∧
  Onboarding.render false (Some sample_user) completed.1 = Some false ∧
  Onboarding.isReady completed.1 = true ∧
  (BrandReady.deliver true completed.2
     (BrandReady.checkBrandReady fetch sample_user (BrandReady.initial, [])).2).2.1 =
    {| BrandReady.isReady := true; BrandReady.loading := false |}.
Proof. repeat split; vm_compute; reflexivity. Qed.

(** A returning user signs in with Google: the profile is found, nothing
    is posted, and the page goes home. *)
Example returning_google_login :
  AuthCallback.handleCallback (inr tt) (inr sample_session) (inr None)
    profile_exists profile_saved (inr tt) (tt, []) =
    (inr tt,
     (tt,
      [ ConsoleLogged
          [ Text "🔍 Auth Callback - Google User Session:";
            Obj [ ("userId", Str "7f3c"); ("email", Str "asha@example.com");
                  ("userProvider", Str "google"); ("isNewSignup", Json (JBool false)) ] ];
        ConsoleLogged
          [Text "🔎 Profile check result:"; Obj [("exists", Json (JBool true))]];
        ConsoleLogged [Text "👤 User already has profile:"; Val (Str "7f3c")];
        Removed "is_new_signup";
        ConsoleLogged [Text "✅ Cleared pending data from sessionStorage"];
        Pushed "/" ])).
Proof. vm_compute. reflexivity. Qed.
